(** * Sampling-work staff assignment: data loader and optimizer

    A shallow embedding of [data_loader.py] and [optimizer.py].

    - Python [str] values are sequences of Unicode code points ([pystr]).
    - Ratings, requirements and scores are integers.  The source accumulates
      the score in a float that only ever holds sums of small integers; such
      values are exact, so the score is an integer here.
    - A Python [dict] keeps its keys in insertion order; it is an association
      list with unique keys ([dict]).
    - A dict with a fixed set of possible keys (a task description) is a
      record whose optional keys are [option] fields, read with [get] the
      way the source reads them with [.get(key, default)].
    - The MILP solver (PuLP/CBC) and [datetime.strptime] are libraries: the
      optimizer is parameterised over them. *)

From Stdlib Require Import ZArith NArith List Bool Lia String Ascii QArith.
Import ListNotations.
Open Scope Z_scope.

(* ================================================================= *)
(** ** Python strings *)

Definition pystr := list N.

Definition str_eq_dec : forall a b : pystr, {a = b} + {a <> b} :=
  list_eq_dec N.eq_dec.

Definition str_eqb (a b : pystr) : bool :=
  if str_eq_dec a b then true else false.

(** An ASCII literal as a Python string. *)
Definition of_ascii (s : string) : pystr :=
  map N_of_ascii (list_ascii_of_string s).

(** [str.isspace] for one code point: the characters [str.strip()] removes. *)
Definition isspace (c : N) : bool :=
  ((9 <=? c) && (c <=? 13) || (28 <=? c) && (c <=? 32) || (c =? 133)
   || (c =? 160) || (c =? 5760) || (8192 <=? c) && (c <=? 8202)
   || (c =? 8232) || (c =? 8233) || (c =? 8239) || (c =? 8287)
   || (c =? 12288))%N.

Fixpoint lstrip (s : pystr) : pystr :=
  match s with
  | [] => []
  | c :: s' => if isspace c then lstrip s' else s
  end.

Definition rstrip (s : pystr) : pystr := rev (lstrip (rev s)).

(** [s.strip()] *)
Definition strip (s : pystr) : pystr := rstrip (lstrip s).

(** [s.startswith(prefix)] *)
Fixpoint startswith (prefix s : pystr) : bool :=
  match prefix, s with
  | [], _ => true
  | _ :: _, [] => false
  | a :: prefix', b :: s' => (a =? b)%N && startswith prefix' s'
  end.

(** [needle in hay] on strings: [needle] occurs in [hay] as a substring. *)
Fixpoint str_in (needle hay : pystr) : bool :=
  startswith needle hay
  || match hay with
     | [] => false
     | _ :: hay' => str_in needle hay'
     end.

(** [d.get(key, default)] on an optional key. *)
Definition get {A : Type} (o : option A) (default : A) : A :=
  match o with
  | Some v => v
  | None => default
  end.

(* ================================================================= *)
(** ** Insertion-ordered dictionaries *)

Section PyDict.
Context {K V : Type}.
Variable K_eq_dec : forall a b : K, {a = b} + {a <> b}.

Definition dict := list (K * V).

(** [d.get(k)] *)
Fixpoint dict_get (d : dict) (k : K) : option V :=
  match d with
  | [] => None
  | (k', v) :: d' => if K_eq_dec k k' then Some v else dict_get d' k
  end.

(** [k in d] *)
Definition dict_mem (d : dict) (k : K) : bool :=
  match dict_get d k with
  | Some _ => true
  | None => false
  end.

(** [d[k] = v]: an existing key keeps its position, a new key goes last. *)
Fixpoint dict_set (d : dict) (k : K) (v : V) : dict :=
  match d with
  | [] => [(k, v)]
  | (k', v') :: d' =>
      if K_eq_dec k k' then (k', v) :: d' else (k', v') :: dict_set d' k v
  end.

(** [d[k] = f(d[k])] for a key that is present (the value of [k] is
    updated in place; the source only does this for keys it has put in). *)
Fixpoint dict_update (d : dict) (k : K) (f : V -> V) : dict :=
  match d with
  | [] => []
  | (k', v') :: d' =>
      if K_eq_dec k k' then (k', f v') :: d' else (k', v') :: dict_update d' k f
  end.

(** [d.keys()] *)
Definition dict_keys (d : dict) : list K := map fst d.

End PyDict.

Arguments dict : clear implicits.

(** [enumerate(l)] *)
Definition enumerate {A : Type} (l : list A) : list (nat * A) :=
  combine (seq 0 (List.length l)) l.

(* ================================================================= *)
(** ** data_loader.py *)

(** One task description as a dict: a row of the [database] sheet after
    [to_dict()], or the default built by [match_task_to_database].  Every
    key except [task_name] is read through [.get] with a default. *)
Record task_dict := {
  task_id : option Z;
  task_name : pystr;
  area : option pystr;
  required_workers : option Z;
  required_skill : option Z;
  required_strength : option Z;
  urgency : option Z;
  ship_work : option Z;
  navigation_required : option Z;
  duration : option Q;
  is_unregistered : option bool
}.

(** One row of the schedule sheet. *)
Record schedule_row := {
  date_str : pystr;
  sched_task_name : pystr
}.

(** The area name given to tasks without one: two code points, U+4E0D U+660E. *)
Definition area_unknown : pystr := [19981; 26126]%N.

(** [get_schedule_by_date]: group the task names by date, dates in order of
    first appearance, names in row order. *)
Definition get_schedule_by_date (schedule_df : list schedule_row)
  : dict pystr (list pystr) :=
  fold_left
    (fun result row =>
       let result :=
         if negb (dict_mem str_eq_dec result (date_str row))
         then dict_set str_eq_dec result (date_str row) []
         else result in
       dict_update str_eq_dec result (date_str row)
         (fun l => l ++ [sched_task_name row]))
    schedule_df [].

(** The default description of a task that is not in the registry. *)
Definition default_task (task_name_clean : pystr) : task_dict :=
  {| task_id := Some 0;
     task_name := task_name_clean;
     area := Some area_unknown;
     required_workers := Some 1;
     required_skill := Some 3;
     required_strength := Some 3;
     urgency := Some 3;
     ship_work := Some 1;
     navigation_required := Some 1;
     duration := Some 1%Q;
     is_unregistered := Some true |}.

(** The partial-match test of one registry row. *)
Definition partial_match (task_name_clean : pystr) (row : task_dict) : bool :=
  let db_name := strip (task_name row) in
  str_in db_name task_name_clean || str_in task_name_clean db_name.

(** [match_task_to_database] *)
Definition match_task_to_database (display_name : pystr)
    (database_df : list task_dict) : task_dict :=
  let task_name_clean := strip display_name in
  match find (fun row => str_eqb (task_name row) task_name_clean) database_df with
  | Some row => row
  | None =>
      match find (partial_match task_name_clean) database_df with
      | Some row => row
      | None => default_task task_name_clean
      end
  end.

(* ================================================================= *)
(** ** optimizer.py: scoring and availability *)

(** One row of the [person] sheet. *)
Record person := {
  name : pystr;
  priority : Z;
  skill : Z;
  trouble : Z;
  personality : Z;
  strength : Z;
  ship : Z;
  driving : Z;
  navigation : Z;
  notes : option pystr
}.

Record SamplingOptimizer := {
  persons : list person;
  tasks : list task_dict
}.

(** [calculate_match_score] *)
Definition calculate_match_score (person : person) (task : task_dict) : Z :=
  let score := 0 in
  let skill_diff := skill person - get (required_skill task) 3 in
  let score :=
    if skill_diff >=? 0 then score + (30 + skill_diff * 5)
    else score - Z.abs skill_diff * 20 in
  let strength_diff := strength person - get (required_strength task) 3 in
  let score :=
    if strength_diff >=? 0 then score + (20 + strength_diff * 3)
    else score - Z.abs strength_diff * 15 in
  let score :=
    if get (ship_work task) 1 >=? 3 then
      let ship_diff := ship person - get (ship_work task) 1 in
      if ship_diff >=? 0 then score + (15 + ship_diff * 2)
      else score - Z.abs ship_diff * 10
    else score in
  let score :=
    if get (navigation_required task) 1 >=? 3 then
      let nav_ability := navigation person in
      if nav_ability >? 0 then score + (10 + nav_ability * 2)
      else score - 30
    else score in
  score.

(** The note that restricts a worker to Mondays and Tuesdays:
    U+6708 U+706B U+306E U+307F. *)
Definition note_mon_tue_only : pystr := [26376; 28779; 12398; 12415]%N.

(** The note that marks a worker as analysis-first:
    U+5206 U+6790 U+512A U+5148. *)
Definition note_analysis_first : pystr := [21010; 26512; 20778; 20808]%N.

(** [get_priority_penalty] *)
Definition get_priority_penalty (person : person) : Z :=
  let notes := get (notes person) [] in
  if str_in note_analysis_first notes then -20 else 0.

(* ================================================================= *)
(** ** Exceptions *)

Inductive pyexn := ValueError.

(** The outcome of a call that may raise. *)
Inductive pyresult (A : Type) :=
| Return (a : A)
| Raise (e : pyexn).

Arguments Return {A} a.
Arguments Raise {A} e.

Definition bind {A B : Type} (c : pyresult A) (k : A -> pyresult B)
  : pyresult B :=
  match c with
  | Return a => k a
  | Raise e => Raise e
  end.

Notation "x <- c ;; k" := (bind c (fun x => k))
  (at level 61, c at next level, right associativity).

(* ================================================================= *)
(** ** The assignment model handed to the solver *)

(** [pulp.LpStatus] *)
Inductive LpStatus :=
| LpStatusNotSolved
| LpStatusOptimal
| LpStatusInfeasible
| LpStatusUnbounded
| LpStatusUndefined.

Definition LpStatus_eqb (a b : LpStatus) : bool :=
  match a, b with
  | LpStatusNotSolved, LpStatusNotSolved
  | LpStatusOptimal, LpStatusOptimal
  | LpStatusInfeasible, LpStatusInfeasible
  | LpStatusUnbounded, LpStatusUnbounded
  | LpStatusUndefined, LpStatusUndefined => true
  | _, _ => false
  end.

(** The binary decision variables, named by the keys of the dicts [x] and
    [y] that hold them. *)
Inductive LpVariable :=
| X (p_idx t_idx : nat)
| Y (p_idx : nat) (area : pystr).

(** The two shapes of constraint the optimizer adds:
    [lpSum(vars) <= bound] and [v <= w]. *)
Inductive LpConstraint :=
| LpSumLe (vars : list LpVariable) (bound : Z)
| LpVarLe (v w : LpVariable).

(** [pulp.LpProblem] with sense [LpMaximize]: the binary variables, the
    objective as a list of [coefficient * variable] terms, the constraints. *)
Record LpProblem := {
  binaries : list LpVariable;
  objective : list (Z * LpVariable);
  constraints : list LpConstraint
}.

(** A resolved task: the dict returned by [match_task_to_database] with the
    key [original_name] that [optimize_day] adds to it. *)
Record task_info := {
  info : task_dict;
  original_name : pystr
}.

(** [v > 0.5] for an integer value. *)
Definition gt_half (v : Z) : bool := 2 * v >? 1.

(** Group the task indices by area, areas in order of first appearance. *)
Definition group_by_area (tasks_info : list task_info) : dict pystr (list nat) :=
  fold_left
    (fun area_tasks '(t_idx, task) =>
       let area := get (area (info task)) area_unknown in
       let area_tasks :=
         if negb (dict_mem str_eq_dec area_tasks area)
         then dict_set str_eq_dec area_tasks area []
         else area_tasks in
       dict_update str_eq_dec area_tasks area (fun l => l ++ [t_idx]))
    (enumerate tasks_info) [].

(** The model [optimize_day] builds for the available workers and the
    resolved tasks of one day. *)
Definition build_problem (available_persons : list person)
    (tasks_info : list task_info) : LpProblem :=
  let area_tasks := group_by_area tasks_info in
  let p_range := seq 0 (List.length available_persons) in
  let x :=
    flat_map (fun '(p_idx, _) =>
                map (fun '(t_idx, _) => X p_idx t_idx) (enumerate tasks_info))
             (enumerate available_persons) in
  let y :=
    flat_map (fun p_idx => map (fun area => Y p_idx area) (dict_keys area_tasks))
             p_range in
  let objective :=
    flat_map (fun '(p_idx, person) =>
                map (fun '(t_idx, task) =>
                       let score := calculate_match_score person (info task) in
                       let score := score + get_priority_penalty person in
                       (score, X p_idx t_idx))
                    (enumerate tasks_info))
             (enumerate available_persons) in
  (* constraint 1: one area per worker *)
  let one_area :=
    map (fun p_idx => LpSumLe (map (fun area => Y p_idx area) (dict_keys area_tasks)) 1)
        p_range in
  (* constraint 2: a task of an area only for a worker of that area *)
  let linking :=
    flat_map (fun p_idx =>
                flat_map (fun '(area, t_indices) =>
                            map (fun t_idx => LpVarLe (X p_idx t_idx) (Y p_idx area))
                                t_indices)
                         area_tasks)
             p_range in
  (* constraint 3: at most the required number of workers per task *)
  let capacity :=
    map (fun '(t_idx, task) =>
           let required := get (required_workers (info task)) 1 in
           LpSumLe (map (fun p_idx => X p_idx t_idx) p_range) required)
        (enumerate tasks_info) in
  {| binaries := x ++ y;
     objective := objective;
     constraints := one_area ++ linking ++ capacity |}.

(** [{task['original_name']: [] for task in tasks_info}] *)
Definition empty_result (tasks_info : list task_info) : dict pystr (list pystr) :=
  fold_left (fun result task => dict_set str_eq_dec result (original_name task) [])
            tasks_info [].

(** The extraction loop of [optimize_day] over the solved variables. *)
Definition extract_result (value : LpVariable -> Z)
    (available_persons : list person) (tasks_info : list task_info)
    (result : dict pystr (list pystr)) : dict pystr (list pystr) :=
  fold_left
    (fun result '(p_idx, person) =>
       fold_left
         (fun result '(t_idx, task) =>
            if gt_half (value (X p_idx t_idx))
            then dict_update str_eq_dec result (original_name task)
                             (fun l => l ++ [name person])
            else result)
         (enumerate tasks_info) result)
    (enumerate available_persons) result.

Section Optimizer.

(** [datetime.strptime(date_str, '%Y-%m-%d').weekday()]: Monday is 0;
    [None] when [strptime] raises [ValueError]. *)
Variable strptime_weekday : pystr -> option Z.

(** [prob.solve(...)]: the status the solver leaves in [prob.status] and
    the value it leaves in each variable. *)
Variable solve : LpProblem -> LpStatus * (LpVariable -> Z).

(** [is_person_available] *)
Definition is_person_available (person : person) (date_str : pystr)
  : pyresult bool :=
  let notes := get (notes person) [] in
  if str_in note_mon_tue_only notes then
    match strptime_weekday date_str with
    | None => Raise ValueError
    | Some weekday =>
        if negb (existsb (Z.eqb weekday) [0; 1]) then Return false
        else Return true
    end
  else Return true.

(** The first loop of [optimize_day]: the workers available on the date. *)
Fixpoint available_on (persons : list person) (date_str : pystr)
  : pyresult (list person) :=
  match persons with
  | [] => Return []
  | person :: rest =>
      ok <- is_person_available person date_str ;;
      available_persons <- available_on rest date_str ;;
      Return (if ok then person :: available_persons else available_persons)
  end.

(** Resolution of the day's task names. *)
Definition resolve_tasks (self : SamplingOptimizer) (task_list : list pystr)
  : list task_info :=
  map (fun task_name =>
         {| info := match_task_to_database task_name (tasks self);
            original_name := task_name |})
      task_list.

(** The body of [optimize_day] once the tasks are resolved and the
    available workers are known: the early return when nobody is available,
    otherwise the model, the solve and the extraction. *)
Definition assign_day (available_persons : list person)
    (tasks_info : list task_info) : dict pystr (list pystr) :=
  match available_persons with
  | [] => empty_result tasks_info
  | _ :: _ =>
      let prob := build_problem available_persons tasks_info in
      let '(status, value) := solve prob in
      let result := empty_result tasks_info in
      if LpStatus_eqb status LpStatusOptimal
      then extract_result value available_persons tasks_info result
      else result
  end.

(** [optimize_day] *)
Definition optimize_day (self : SamplingOptimizer) (date_str : pystr)
    (task_list : list pystr) : pyresult (dict pystr (list pystr)) :=
  let tasks_info := resolve_tasks self task_list in
  available_persons <- available_on (persons self) date_str ;;
  Return (assign_day available_persons tasks_info).

(** The loop of [optimize_schedule] over the dates. *)
Fixpoint optimize_dates (self : SamplingOptimizer)
    (items : list (pystr * list pystr))
    (all_results : dict pystr (dict pystr (list pystr)))
  : pyresult (dict pystr (dict pystr (list pystr))) :=
  match items with
  | [] => Return all_results
  | (date_str, task_list) :: rest =>
      day_result <- optimize_day self date_str task_list ;;
      optimize_dates self rest (dict_set str_eq_dec all_results date_str day_result)
  end.

(** [optimize_schedule] *)
Definition optimize_schedule (self : SamplingOptimizer)
    (schedule_df : list schedule_row)
  : pyresult (dict pystr (dict pystr (list pystr))) :=
  let schedule_by_date := get_schedule_by_date schedule_df in
  optimize_dates self schedule_by_date [].

End Optimizer.

(* ================================================================= *)
(** ** The meaning of a model, and a reference solver *)

Definition LpVariable_eq_dec : forall a b : LpVariable, {a = b} + {a <> b}.
Proof.
  decide equality; try apply Nat.eq_dec; apply str_eq_dec.
Defined.

(** The sum of a list of integers. *)
Definition zsum (l : list Z) : Z := fold_right Z.add 0 l.

Definition constraint_holds (value : LpVariable -> Z) (c : LpConstraint) : bool :=
  match c with
  | LpSumLe vars bound => zsum (map value vars) <=? bound
  | LpVarLe v w => value v <=? value w
  end.

Definition is_binary (value : LpVariable -> Z) (v : LpVariable) : bool :=
  (0 <=? value v) && (value v <=? 1).

(** [value] is a solution of [prob]: every variable is 0 or 1 and every
    constraint holds. *)
Definition feasible (prob : LpProblem) (value : LpVariable -> Z) : bool :=
  forallb (is_binary value) (binaries prob)
  && forallb (constraint_holds value) (constraints prob).

Definition objective_value (prob : LpProblem) (value : LpVariable -> Z) : Z :=
  zsum (map (fun '(coef, v) => coef * value v) (objective prob)).

(** What the optimizer relies on when the solver answers [Optimal]. *)
Definition solver_sound_on (solve : LpProblem -> LpStatus * (LpVariable -> Z))
    (prob : LpProblem) : Prop :=
  fst (solve prob) = LpStatusOptimal -> feasible prob (snd (solve prob)) = true.

(** Every 0/1 assignment of a list of variables. *)
Fixpoint all_assignments (vars : list LpVariable)
  : list (dict LpVariable Z) :=
  match vars with
  | [] => [[]]
  | v :: vars' =>
      flat_map (fun a => [(v, 0) :: a; (v, 1) :: a]) (all_assignments vars')
  end.

Definition value_of (a : dict LpVariable Z) (v : LpVariable) : Z :=
  get (dict_get LpVariable_eq_dec a v) 0.

(** The first candidate of greatest objective value. *)
Definition best_of (prob : LpProblem) (candidates : list (dict LpVariable Z))
  : option (dict LpVariable Z) :=
  fold_left
    (fun best a =>
       match best with
       | None => Some a
       | Some b =>
           if objective_value prob (value_of b) <? objective_value prob (value_of a)
           then Some a else Some b
       end)
    candidates None.

(** A solver by exhaustive search, for running the optimizer on small days. *)
Definition exhaustive_solve (prob : LpProblem) : LpStatus * (LpVariable -> Z) :=
  match best_of prob (filter (fun a => feasible prob (value_of a))
                             (all_assignments (binaries prob))) with
  | Some a => (LpStatusOptimal, value_of a)
  | None => (LpStatusInfeasible, fun _ => 0)
  end.

(** A solver that always gives up. *)
Definition failing_solve (prob : LpProblem) : LpStatus * (LpVariable -> Z) :=
  (LpStatusInfeasible, fun _ => 0).

(* ================================================================= *)
(** ** The weekday of a canonical date *)

Definition digit (c : N) : option Z :=
  if ((48 <=? c) && (c <=? 57))%N then Some (Z.of_N c - 48) else None.

Definition is_leap (y : Z) : bool :=
  (y mod 4 =? 0) && (negb (y mod 100 =? 0) || (y mod 400 =? 0)).

Definition days_in_month (y m : Z) : Z :=
  if m =? 2 then (if is_leap y then 29 else 28)
  else if (m =? 4) || (m =? 6) || (m =? 9) || (m =? 11) then 30 else 31.

Definition days_before_year (y : Z) : Z :=
  (y - 1) * 365 + (y - 1) / 4 - (y - 1) / 100 + (y - 1) / 400.

Definition days_before_month (y m : Z) : Z :=
  zsum (map (days_in_month y) (map Z.of_nat (seq 1 (Z.to_nat (m - 1))))).

(** [date(y, m, d).weekday()] *)
Definition weekday_of_ymd (y m d : Z) : Z :=
  (days_before_year y + days_before_month y m + d + 6) mod 7.

(** [strptime_weekday] on dates written [YYYY-MM-DD] with ASCII digits, the
    form [load_schedule] writes with [strftime('%Y-%m-%d')]. *)
Definition iso_weekday (date_str : pystr) : option Z :=
  match date_str with
  | [y1; y2; y3; y4; 45; m1; m2; 45; d1; d2]%N =>
      match digit y1, digit y2, digit y3, digit y4,
            digit m1, digit m2, digit d1, digit d2 with
      | Some a, Some b, Some c, Some e, Some f, Some g, Some h, Some i =>
          let y := 1000 * a + 100 * b + 10 * c + e in
          let m := 10 * f + g in
          let d := 10 * h + i in
          if (1 <=? y) && (1 <=? m) && (m <=? 12) && (1 <=? d)
             && (d <=? days_in_month y m)
          then Some (weekday_of_ymd y m d) else None
      | _, _, _, _, _, _, _, _ => None
      end
  | _ => None
  end.

(* ================================================================= *)
(** ** Sample data *)

Definition W1 : person :=
  {| name := of_ascii "W1"; priority := 1; skill := 5; trouble := 1;
     personality := 3; strength := 5; ship := 1; driving := 1;
     navigation := 1; notes := Some [] |}.

(** A worker restricted to Mondays and Tuesdays. *)
Definition W2 : person :=
  {| name := of_ascii "W2"; priority := 2; skill := 4; trouble := 2;
     personality := 3; strength := 4; ship := 0; driving := 1;
     navigation := 0; notes := Some note_mon_tue_only |}.

(** An analysis-first worker with the ratings of [W1]. *)
Definition W3 : person :=
  {| name := of_ascii "W3"; priority := 3; skill := 5; trouble := 4;
     personality := 2; strength := 5; ship := 1; driving := 0;
     navigation := 1; notes := Some note_analysis_first |}.

Definition T1 : task_dict :=
  {| task_id := Some 1; task_name := of_ascii "T1";
     area := Some (of_ascii "north"); required_workers := Some 1;
     required_skill := Some 3; required_strength := Some 3;
     urgency := Some 3; ship_work := Some 1; navigation_required := Some 1;
     duration := Some 1%Q; is_unregistered := None |}.

Definition T2 : task_dict :=
  {| task_id := Some 2; task_name := of_ascii "T2 river";
     area := Some (of_ascii "south"); required_workers := Some 2;
     required_skill := Some 4; required_strength := Some 2;
     urgency := Some 2; ship_work := Some 3; navigation_required := Some 4;
     duration := Some (7 # 4)%Q; is_unregistered := None |}.

Definition sample_optimizer : SamplingOptimizer :=
  {| persons := [W1; W2; W3]; tasks := [T1; T2] |}.

Definition sample_schedule : list schedule_row :=
  [ {| date_str := of_ascii "2025-04-01"; sched_task_name := of_ascii "T1" |};
    {| date_str := of_ascii "2025-04-02"; sched_task_name := of_ascii "T1" |};
    {| date_str := of_ascii "2025-04-01"; sched_task_name := of_ascii " river " |};
    {| date_str := of_ascii "2025-04-02"; sched_task_name := of_ascii "lab" |} ].

(* ================================================================= *)
(** ** Vocabulary of the statements *)

(** [a] occurs in [b]. *)
Definition substring (a b : pystr) : Prop :=
  exists pre post, b = pre ++ a ++ post.

(** [row] is the first row of [database_df] with property [P]. *)
Definition first_row (P : task_dict -> Prop) (database_df : list task_dict)
    (row : task_dict) : Prop :=
  exists before after,
    database_df = before ++ row :: after
    /\ P row
    /\ forall r, In r before -> ~ P r.

(** The name of [row], trimmed, occurs in the trimmed display name, or the
    other way round. *)
Definition names_overlap (task_name_clean : pystr) (row : task_dict) : Prop :=
  substring (strip (task_name row)) task_name_clean
  \/ substring task_name_clean (strip (task_name row)).

(** The four terms of the score, as the requirements describe them. *)
Definition skill_term (d : Z) : Z :=
  if 0 <=? d then 30 + 5 * d else - (20 * Z.abs d).

Definition strength_term (d : Z) : Z :=
  if 0 <=? d then 20 + 3 * d else - (15 * Z.abs d).

Definition vessel_term (requires_vessel_work d : Z) : Z :=
  if 3 <=? requires_vessel_work
  then (if 0 <=? d then 15 + 2 * d else - (10 * Z.abs d))
  else 0.

Definition navigation_term (requires_navigation capability : Z) : Z :=
  if 3 <=? requires_navigation
  then (if 0 <? capability then 10 + 2 * capability else -30)
  else 0.

(** The area under which [group_by_area] files a resolved task. *)
Definition area_of (task : task_dict) : pystr := get (area task) area_unknown.

(** The capacity [optimize_day] gives a resolved task. *)
Definition required_of (task : task_dict) : Z := get (required_workers task) 1.

(** Whether the worker carries the Monday-and-Tuesday-only rule. *)
Definition mon_tue_only (p : person) : bool :=
  str_in note_mon_tue_only (get (notes p) []).



(** A day on which the only worker fits the only task badly. *)
Definition unfit_optimizer : SamplingOptimizer :=
  {| persons := [W2]; tasks := [T2] |}.

Definition unfit_schedule : list schedule_row :=
  [ {| date_str := of_ascii "2025-04-01";
       sched_task_name := of_ascii "T2 river" |} ].

(** The worker names [extract_result] appends under the key [k], in the
    order it appends them. *)
Definition assigned_under (value : LpVariable -> Z)
    (available_persons : list person) (tasks_info : list task_info)
    (k : pystr) : list pystr :=
  flat_map
    (fun '(p_idx, person) =>
       flat_map
         (fun '(t_idx, task) =>
            if gt_half (value (X p_idx t_idx)) && str_eqb (original_name task) k
            then [name person] else [])
         (enumerate tasks_info))
    (enumerate available_persons).

(** The number of workers the solution gives to the task at index [t_idx]. *)
Definition workers_on (value : LpVariable -> Z) (n_persons t_idx : nat) : Z :=
  Z.of_nat
    (List.length
       (filter (fun p_idx => gt_half (value (X p_idx t_idx))) (seq 0 n_persons))).

(** A day on which the same task is scheduled twice. *)
Definition twice_optimizer : SamplingOptimizer :=
  {| persons := [W1]; tasks := [T1] |}.

Definition twice_task_list : list pystr := [of_ascii "T1"; of_ascii "T1"].

(* ================================================================= *)
(** ** Further vocabulary *)

From Stdlib Require Import Sorted Permutation.

(** The distinct elements of [l], each at the place of its first
    occurrence: the key order of a dict filled in the order of [l]. *)
Definition first_occurrences (l : list pystr) : list pystr :=
  rev (nodup str_eq_dec (rev l)).

(** The task names the schedule lists for [d], in row order. *)
Definition names_on (schedule_df : list schedule_row) (d : pystr) : list pystr :=
  map sched_task_name (filter (fun row => str_eqb (date_str row) d) schedule_df).

(** The indices of the day's tasks that lie in area [a], in schedule order. *)
Definition indices_in_area (tasks_info : list task_info) (a : pystr) : list nat :=
  map fst (filter (fun it => str_eqb (area_of (info (snd it))) a)
                  (enumerate tasks_info)).

(** The loop body shared by [get_schedule_by_date] and [group_by_area]:
    create the list of the key if the key is new, then append the value. *)
Definition group_step {B V : Type} (kf : B -> pystr) (vf : B -> V)
    (d : dict pystr (list V)) (b : B) : dict pystr (list V) :=
  dict_update str_eq_dec
    (if negb (dict_mem str_eq_dec d (kf b)) then dict_set str_eq_dec d (kf b) [] else d)
    (kf b) (fun l => l ++ [vf b]).

(* ================================================================= *)
(** ** data_loader.py: durations *)

(** [s.replace(old, new)] for one-character [old] and [new]. *)
Definition replace_char (old new : N) (s : pystr) : pystr :=
  map (fun c => if (c =? old)%N then new else c) s.

(** [s.split(sep)] for a one-character separator. *)
Fixpoint split_on (sep : N) (s : pystr) : list pystr :=
  match s with
  | [] => [[]]
  | c :: s' =>
      if (c =? sep)%N then [] :: split_on sep s'
      else match split_on sep s' with
           | part :: parts => (c :: part) :: parts
           | [] => [[c]]
           end
  end.

(** The ASCII tilde and the fullwidth tilde U+FF5E. *)
Definition tilde : N := 126%N.
Definition fullwidth_tilde : N := 65374%N.

(** A cell of the [duration] column as [read_excel] gives it: empty (NaN),
    a string, or a number. *)
Inductive cell (F : Type) :=
| CellNaN
| CellStr (s : pystr)
| CellNum (f : F).

Arguments CellNaN {F}.
Arguments CellStr {F} s.
Arguments CellNum {F} f.

Section Duration.

(** Python floats with the operations [parse_duration] uses: [float(s)] on a
    string ([None] when it raises [ValueError]), [a + b], [a / 2] and the
    literal [1.0]. *)
Variable F : Type.
Variable float_of_str : pystr -> option F.
Variable fadd : F -> F -> F.
Variable fdiv2 : F -> F.
Variable one : F.

(** [parse_duration], the helper of [load_task_database]. *)
Definition parse_duration (val : cell F) : F :=
  match val with
  | CellNaN => one
  | CellStr val =>
      if str_in [fullwidth_tilde] val || str_in [tilde] val then
        let parts := split_on tilde (replace_char fullwidth_tilde tilde val) in
        match nth_error parts 0, nth_error parts 1 with
        | Some part0, Some part1 =>
            match float_of_str part0, float_of_str part1 with
            | Some a, Some b => fdiv2 (fadd a b)
            | _, _ => one
            end
        | _, _ => one
        end
      else
        match float_of_str val with
        | Some f => f
        | None => one
        end
  | CellNum f => f
  end.

End Duration.

(** A stand-in for [float] on strings of ASCII digits, for running
    [parse_duration] on whole hours. *)
Definition digits_value (s : pystr) : option Z :=
  fold_left
    (fun acc c =>
       match acc, digit c with
       | Some n, Some d => Some (10 * n + d)
       | _, _ => None
       end)
    s (Some 0).

Definition whole_hours (s : pystr) : option Q :=
  match s with
  | [] => None
  | _ :: _ => option_map inject_Z (digits_value s)
  end.

(* ================================================================= *)
(** ** data_loader.py and create_sample_data.py: serial dates *)

(** A [datetime] at midnight is its ordinal ([toordinal()]): day 1 is
    0001-01-01 of the proleptic Gregorian calendar. *)
Definition ymd2ord (y m d : Z) : Z :=
  days_before_year y + days_before_month y m + d.

(** [datetime.max], as a day. *)
Definition ordinal_max : Z := ymd2ord 9999 12 31.

(** [dt + timedelta(days=n)]; [None] when building the [timedelta] or the
    sum raises [OverflowError]. *)
Definition datetime_add_days (dt n : Z) : option Z :=
  if (-999999999 <=? n) && (n <=? 999999999) then
    let r := dt + n in
    if (1 <=? r) && (r <=? ordinal_max) then Some r else None
  else None.

(** [excel_serial_to_date] *)
Definition excel_serial_to_date (serial : Z) : option Z :=
  let base_date := ymd2ord 1899 12 31 in
  datetime_add_days base_date (serial - 366).

(** The serial [create_sample_data.py] writes for a date:
    [(x - datetime(1899, 12, 31)).days + 366]. *)
Definition date_serial (x : Z) : Z :=
  (x - ymd2ord 1899 12 31) + 366.

(** [dt.weekday()] of a day given by its ordinal. *)
Definition weekday_of_ordinal (x : Z) : Z := (x + 6) mod 7.

(* ================================================================= *)
(** ** optimizer.py: the whole run *)

(** [a < b] on strings: code point by code point, a proper prefix first. *)
Fixpoint str_ltb (a b : pystr) : bool :=
  match a, b with
  | _, [] => false
  | [], _ :: _ => true
  | x :: a', y :: b' => (x <? y)%N || ((x =? y)%N && str_ltb a' b')
  end.

(** [insert_str x l] puts [x] before the first element of [l] that is not
    below it. *)
Fixpoint insert_str (x : pystr) (l : list pystr) : list pystr :=
  match l with
  | [] => [x]
  | y :: l' => if str_ltb y x then y :: insert_str x l' else x :: l
  end.

(** [sorted(l)] on a list of strings.  Python sorts with another algorithm;
    a stable sort by a total order has one possible result. *)
Definition sorted (l : list pystr) : list pystr :=
  fold_right insert_str [] l.

(** The dict [run_optimization] returns, with its keys [results],
    [persons] and [schedule_dates]. *)
Record optimization_output := {
  out_results : dict pystr (dict pystr (list pystr));
  out_persons : list person;
  out_schedule_dates : list pystr
}.

Section Run.
Variable strptime_weekday : pystr -> option Z.
Variable solve : LpProblem -> LpStatus * (LpVariable -> Z).

(** [run_optimization], from the three data frames [load_all_data] has
    read. *)
Definition run_optimization (persons_df : list person)
    (tasks_df : list task_dict) (schedule_df : list schedule_row)
  : pyresult optimization_output :=
  let optimizer := {| persons := persons_df; tasks := tasks_df |} in
  results <- optimize_schedule strptime_weekday solve optimizer schedule_df ;;
  Return {| out_results := results;
            out_persons := persons_df;
            out_schedule_dates := sorted (dict_keys results) |}.

End Run.

(* ================================================================= *)
(** ** app.py: the handlers that call the optimizer *)


Module App.

(** What [load_all_data] reads from the two workbooks. *)
Record data := {
  persons_df : list person;
  tasks_df : list task_dict;
  schedule_df : list schedule_row
}.

(** The module globals. *)
Record state := {
  cached_data : option data;
  cached_results : option (dict pystr (dict pystr (list pystr)))
}.

(** The error a JSON answer carries: the "date not found" message of a 404,
    the text of a caught exception, or the fixed message of the 400 that
    asks to run the optimization first. *)
Inductive error :=
| DateNotFound (message : pystr)
| Caught (e : pyexn)
| NotOptimized.

(** The JSON answers: [success] false with an error, or [success] true with
    the fields of the handler. *)
Inductive body :=
| Failure (error : error)
| Optimized (results : dict pystr (dict pystr (list pystr))) (dates : list pystr)
| DayOptimized (date : pystr) (results : dict pystr (list pystr)).

(** An exception that leaves a handler uncaught. *)
Inductive uncaught :=
| UncaughtValueError
| UncaughtIndexError.





Section Handlers.
Variable strptime_weekday : pystr -> option Z.
Variable solve : LpProblem -> LpStatus * (LpVariable -> Z).

(** [get_cached_data]: [files] is what the workbooks hold when it reads
    them. *)
Definition get_cached_data (files : data) (st : state) : data * state :=
  match cached_data st with
  | None =>
      (files, {| cached_data := Some files; cached_results := cached_results st |})
  | Some cached => (cached, st)
  end.

(** [optimize], the handler of [/api/optimize]: the status code, the JSON
    answer and the globals afterwards. *)
Definition optimize (files : data) (st : state) : (Z * body) * state :=
  match run_optimization strptime_weekday solve
          (persons_df files) (tasks_df files) (schedule_df files) with
  | Return result =>
      ((200, Optimized (out_results result) (out_schedule_dates result)),
       {| cached_data := cached_data st;
          cached_results := Some (out_results result) |})
  | Raise e => ((500, Failure (Caught e)), st)
  end.

(** [optimize_day], the handler of [/api/optimize/day/<date_str>]. *)
Definition optimize_day (files : data) (st : state) (date_str : pystr)
  : (uncaught + Z * body) * state :=
  let '(data, st) := get_cached_data files st in
  let schedule_by_date := get_schedule_by_date (schedule_df data) in
  match dict_get str_eq_dec schedule_by_date date_str with
  | None =>
      (inr (404, Failure (DateNotFound
                            (of_ascii "Date " ++ date_str
                             ++ of_ascii " not found in schedule"))),
       st)
  | Some task_list =>
      let optimizer := {| persons := persons_df data; tasks := tasks_df data |} in
      match optimize_day strptime_weekday solve optimizer date_str task_list with
      | Return result => (inr (200, DayOptimized date_str result), st)
      | Raise ValueError => (inl UncaughtValueError, st)
      end
  end.




End Handlers.

End App.

(* ================================================================= *)
(** ** Dates written YYYY-MM-DD *)

(** The year, month and day a string of the form [YYYY-MM-DD] writes, as
    [load_schedule] writes its dates with [strftime('%Y-%m-%d')]. *)
Definition iso_ymd (s : pystr) : option (Z * Z * Z) :=
  match s with
  | [y1; y2; y3; y4; s1; m1; m2; s2; d1; d2] =>
      if ((s1 =? 45) && (s2 =? 45))%N then
        match digit y1, digit y2, digit y3, digit y4,
              digit m1, digit m2, digit d1, digit d2 with
        | Some a, Some b, Some c, Some e, Some f, Some g, Some h, Some i =>
            Some (1000 * a + 100 * b + 10 * c + e, 10 * f + g, 10 * h + i)
        | _, _, _, _, _, _, _, _ => None
        end
      else None
  | _ => None
  end.

(** One date is before another: by year, then month, then day. *)
Definition ymd_lt (a b : Z * Z * Z) : Prop :=
  let '(ya, ma, da) := a in
  let '(yb, mb, db) := b in
  ya < yb \/ (ya = yb /\ (ma < mb \/ (ma = mb /\ da < db))).

(* ================================================================= *)
(** ** Strings: substring test and trimming *)

Lemma startswith_spec (prefix s : pystr) :
  startswith prefix s = true <-> exists post, s = prefix ++ post.
Proof.
  revert s; induction prefix as [|a prefix IH]; intros s; simpl.
  - split; [intros _; now exists s | reflexivity].
  - destruct s as [|b s].
    + split; [discriminate | intros [post H]; discriminate].
    + rewrite andb_true_iff, N.eqb_eq, IH. split.
      * intros [-> [post ->]]. now exists post.
      * intros [post H]. injection H as -> ->. split; [reflexivity | now exists post].
Qed.

Lemma str_in_spec (needle hay : pystr) :
  str_in needle hay = true <-> substring needle hay.
Proof.
  unfold substring. induction hay as [|c hay IH].
  - simpl. rewrite orb_false_r, startswith_spec. split.
    + intros [post H]. now exists [], post.
    + intros [pre [post H]]. symmetry in H.
      apply app_eq_nil in H as [-> H]. apply app_eq_nil in H as [-> ->].
      now exists [].
  - cbn [str_in]. rewrite orb_true_iff, startswith_spec, IH. split.
    + intros [[post H] | [pre [post H]]].
      * exists [], post. exact H.
      * exists (c :: pre), post. simpl. now rewrite H.
    + intros [[|c' pre] [post H]].
      * left. now exists post.
      * right. injection H as _ H. now exists pre, post.
Qed.

Lemma lstrip_decompose (s : pystr) :
  exists ws, s = ws ++ lstrip s /\ forallb isspace ws = true.
Proof.
  induction s as [|c s [ws [H1 H2]]]; simpl.
  - now exists [].
  - destruct (isspace c) eqn:E.
    + exists (c :: ws). simpl. rewrite E, H2. now rewrite <- H1.
    + now exists [].
Qed.

Lemma lstrip_head (s : pystr) (c : N) (rest : pystr) :
  lstrip s = c :: rest -> isspace c = false.
Proof.
  induction s as [|a s IH]; simpl; [discriminate|].
  destruct (isspace a) eqn:E; [exact IH|].
  intros H. injection H as <- _. exact E.
Qed.

Lemma lstrip_fixed (s : pystr) :
  (forall c rest, s = c :: rest -> isspace c = false) -> lstrip s = s.
Proof.
  destruct s as [|c s]; [reflexivity|].
  intros H. simpl. now rewrite (H c s eq_refl).
Qed.

Lemma lstrip_idempotent (s : pystr) : lstrip (lstrip s) = lstrip s.
Proof.
  apply lstrip_fixed. intros c rest H. exact (lstrip_head _ _ _ H).
Qed.

Lemma lstrip_app_nonspace (l m : pystr) (c : N) :
  isspace c = false -> lstrip (l ++ c :: m) = lstrip l ++ c :: m.
Proof.
  intros Hc. induction l as [|a l IH]; simpl.
  - now rewrite Hc.
  - destruct (isspace a); [exact IH | reflexivity].
Qed.

Lemma rstrip_decompose (s : pystr) :
  exists ws, s = rstrip s ++ ws /\ forallb isspace ws = true.
Proof.
  unfold rstrip. destruct (lstrip_decompose (rev s)) as [ws [H1 H2]].
  exists (rev ws). split.
  - rewrite <- rev_app_distr, <- H1. now rewrite rev_involutive.
  - rewrite forallb_forall in *. intros x Hx. apply H2. now apply in_rev.
Qed.

Lemma rstrip_last (s front : pystr) (c : N) :
  rstrip s = front ++ [c] -> isspace c = false.
Proof.
  unfold rstrip. intros H.
  apply (f_equal (@rev N)) in H. rewrite rev_involutive, rev_app_distr in H.
  simpl in H. exact (lstrip_head _ _ _ H).
Qed.

Lemma rstrip_idempotent (s : pystr) : rstrip (rstrip s) = rstrip s.
Proof.
  unfold rstrip. now rewrite rev_involutive, lstrip_idempotent.
Qed.

Lemma rstrip_cons_nonspace (c : N) (s : pystr) :
  isspace c = false -> rstrip (c :: s) = c :: rstrip s.
Proof.
  intros Hc. unfold rstrip. simpl.
  rewrite lstrip_app_nonspace by exact Hc.
  rewrite rev_app_distr. reflexivity.
Qed.

Lemma strip_head (s : pystr) (c : N) (rest : pystr) :
  strip s = c :: rest -> isspace c = false.
Proof.
  unfold strip. destruct (lstrip s) as [|a l] eqn:E.
  - discriminate.
  - pose proof (lstrip_head _ _ _ E) as Ha.
    rewrite rstrip_cons_nonspace by exact Ha.
    intros H. injection H as <- _. exact Ha.
Qed.

Lemma strip_idempotent (s : pystr) : strip (strip s) = strip s.
Proof.
  unfold strip at 1.
  rewrite (lstrip_fixed (strip s)) by (intros c rest H; exact (strip_head _ _ _ H)).
  unfold strip. apply rstrip_idempotent.
Qed.

(** [strip] removes a run of whitespace at each end and nothing else. *)
Lemma strip_spec (s : pystr) :
  (exists ws1 ws2, s = ws1 ++ strip s ++ ws2
                   /\ forallb isspace ws1 = true /\ forallb isspace ws2 = true)
  /\ (forall c rest, strip s = c :: rest -> isspace c = false)
  /\ (forall front c, strip s = front ++ [c] -> isspace c = false).
Proof.
  split; [|split].
  - destruct (lstrip_decompose s) as [ws1 [H1 H2]].
    destruct (rstrip_decompose (lstrip s)) as [ws2 [H3 H4]].
    exists ws1, ws2. unfold strip. now rewrite <- H3.
  - apply strip_head.
  - intros front c. unfold strip. apply rstrip_last.
Qed.

(* ================================================================= *)
(** ** Lists *)

Lemma find_first {A : Type} (f : A -> bool) (l : list A) (x : A) :
  find f l = Some x <->
  exists before after,
    l = before ++ x :: after /\ f x = true
    /\ forall r, In r before -> f r = false.
Proof.
  split.
  - induction l as [|a l IH]; simpl; [discriminate|].
    destruct (f a) eqn:E.
    + intros H. injection H as ->. exists [], l. simpl. tauto.
    + intros H. destruct (IH H) as [before [after [-> [Hx Hb]]]].
      exists (a :: before), after. simpl. repeat split; auto.
      intros r [<- | Hr]; auto.
  - intros [before [after [-> [Hx Hb]]]].
    induction before as [|a before IH]; simpl.
    + now rewrite Hx.
    + rewrite (Hb a (or_introl eq_refl)). apply IH.
      intros r Hr. apply Hb. now right.
Qed.

Lemma in_combine_seq {A : Type} (l : list A) (s i : nat) (a : A) :
  In (i, a) (combine (seq s (List.length l)) l) <->
  (s <= i)%nat /\ nth_error l (i - s) = Some a.
Proof.
  revert s; induction l as [|b l IH]; intros s; simpl.
  - split; [tauto | intros [_ H]; destruct (i - s)%nat; discriminate].
  - rewrite IH. split.
    + intros [H | [H1 H2]].
      * injection H as <- <-. rewrite Nat.sub_diag. simpl. auto.
      * split; [lia|]. replace (i - s)%nat with (S (i - S s)) by lia. exact H2.
    + intros [H1 H2]. destruct (Nat.eq_dec s i) as [<- | Hne].
      * rewrite Nat.sub_diag in H2. simpl in H2. injection H2 as <-. now left.
      * right. split; [lia|].
        replace (i - s)%nat with (S (i - S s)) in H2 by lia. exact H2.
Qed.

Lemma in_enumerate {A : Type} (l : list A) (i : nat) (a : A) :
  In (i, a) (enumerate l) <-> nth_error l i = Some a.
Proof.
  unfold enumerate. rewrite in_combine_seq, Nat.sub_0_r.
  split; [tauto | intros H; split; [lia | exact H]].
Qed.

(* ================================================================= *)
(** ** The suitability score *)

(** C2: the score is the sum of the skill, strength, vessel and navigation
    terms, the last two counted only from a requirement of 3; a worker with
    skill 5 and strength 5 scores 66 on a task that requires skill 3 and
    strength 3 with vessel and navigation requirements of 1. *)
Theorem calculate_match_score_terms (p : person) (t : task_dict) :
  let required_skill := get (required_skill t) 3 in
  let required_strength := get (required_strength t) 3 in
  let requires_vessel_work := get (ship_work t) 1 in
  let requires_navigation := get (navigation_required t) 1 in
  calculate_match_score p t =
    skill_term (skill p - required_skill)
    + strength_term (strength p - required_strength)
    + vessel_term requires_vessel_work (ship p - requires_vessel_work)
    + navigation_term requires_navigation (navigation p)
  /\ (skill p = 5 -> strength p = 5 ->
      required_skill = 3 -> required_strength = 3 ->
      requires_vessel_work = 1 -> requires_navigation = 1 ->
      calculate_match_score p t = 66).
Proof.
  intros rs rst rv rn.
  assert (E : calculate_match_score p t =
              skill_term (skill p - rs) + strength_term (strength p - rst)
              + vessel_term rv (ship p - rv) + navigation_term rn (navigation p)).
  { unfold calculate_match_score, skill_term, strength_term, vessel_term,
      navigation_term.
    fold rs rst rv rn. rewrite !Z.geb_leb, Z.gtb_ltb.
    destruct (0 <=? skill p - rs), (0 <=? strength p - rst), (3 <=? rv),
      (0 <=? ship p - rv), (3 <=? rn), (0 <? navigation p); lia. }
  split; [exact E|].
  intros Hs Hst Hrs Hrst Hrv Hrn. rewrite E, Hs, Hst, Hrs, Hrst, Hrv, Hrn.
  reflexivity.
Qed.

Lemma calculate_match_score_terms_witness :
  calculate_match_score W1 T1 = 66.
Proof.
  apply (calculate_match_score_terms W1 T1); reflexivity.
Defined.



(* ================================================================= *)
(** ** The task resolver *)

Lemma str_eqb_eq (a b : pystr) : str_eqb a b = true <-> a = b.
Proof.
  unfold str_eqb. destruct (str_eq_dec a b); split; auto; discriminate.
Qed.

Lemma partial_match_spec (task_name_clean : pystr) (row : task_dict) :
  partial_match task_name_clean row = true <-> names_overlap task_name_clean row.
Proof.
  unfold partial_match, names_overlap.
  now rewrite orb_true_iff, !str_in_spec.
Qed.

Lemma first_row_find (f : task_dict -> bool) (P : task_dict -> Prop)
    (database_df : list task_dict) (row : task_dict) :
  (forall r, f r = true <-> P r) ->
  first_row P database_df row -> find f database_df = Some row.
Proof.
  intros HfP [before [after [E [HP Hb]]]]. apply find_first.
  exists before, after. repeat split; [exact E | now apply HfP |].
  intros r Hr. destruct (f r) eqn:Er; [|reflexivity].
  exfalso. apply (Hb r Hr). now apply HfP.
Qed.

Lemma find_none_iff {A : Type} (f : A -> bool) (l : list A) :
  (forall r, In r l -> f r = false) -> find f l = None.
Proof.
  induction l as [|a l IH]; simpl; [reflexivity|].
  intros H. rewrite (H a (or_introl eq_refl)). apply IH. auto.
Qed.

Lemma match_task_to_database_default (display_name : pystr)
    (database_df : list task_dict) :
  (forall r, In r database_df ->
             task_name r <> strip display_name
             /\ ~ names_overlap (strip display_name) r) ->
  match_task_to_database display_name database_df
  = default_task (strip display_name).
Proof.
  intros Hno. unfold match_task_to_database.
  rewrite find_none_iff.
  - rewrite find_none_iff; [reflexivity|].
    intros r Hr. destruct (partial_match (strip display_name) r) eqn:E;
      [|reflexivity].
    exfalso. apply (proj2 (Hno r Hr)). now apply partial_match_spec.
  - intros r Hr. destruct (str_eqb (task_name r) (strip display_name)) eqn:E;
      [|reflexivity].
    exfalso. apply (proj1 (Hno r Hr)). now apply str_eqb_eq.
Qed.

(** C6: the resolver works on the trimmed display name; it returns the first
    registry row whose name equals it; failing that, the first row, in
    registry order, whose trimmed name occurs in it or in whose trimmed name
    it occurs; failing that, the default description of an unregistered
    task. *)
Theorem match_task_to_database_spec (display_name : pystr)
    (database_df : list task_dict) :
  let task_name_clean := strip display_name in
  let resolved := match_task_to_database display_name database_df in
  ((exists ws1 ws2,
       display_name = ws1 ++ task_name_clean ++ ws2
       /\ forallb isspace ws1 = true /\ forallb isspace ws2 = true)
   /\ (forall c rest, task_name_clean = c :: rest -> isspace c = false)
   /\ (forall front c, task_name_clean = front ++ [c] -> isspace c = false))
  /\ match_task_to_database task_name_clean database_df = resolved
  /\ (forall row,
        first_row (fun r => task_name r = task_name_clean) database_df row ->
        resolved = row)
  /\ ((forall r, In r database_df -> task_name r <> task_name_clean) ->
      forall row,
        first_row (names_overlap task_name_clean) database_df row ->
        resolved = row)
  /\ ((forall r, In r database_df ->
                 task_name r <> task_name_clean
                 /\ ~ names_overlap task_name_clean r) ->
      resolved = default_task task_name_clean
      /\ task_name resolved = task_name_clean
      /\ required_workers resolved = Some 1
      /\ required_skill resolved = Some 3
      /\ required_strength resolved = Some 3
      /\ ship_work resolved = Some 1
      /\ navigation_required resolved = Some 1
      /\ duration resolved = Some 1%Q
      /\ is_unregistered resolved = Some true).
Proof.
  intros task_name_clean resolved.
  assert (Hexact : forall r,
             str_eqb (task_name r) task_name_clean = true
             <-> task_name r = task_name_clean)
    by (intros r; apply str_eqb_eq).
  split; [apply strip_spec|]. split; [|split; [|split]].
  - subst resolved task_name_clean. unfold match_task_to_database.
    now rewrite strip_idempotent.
  - intros row Hrow. unfold resolved, match_task_to_database.
    fold task_name_clean.
    now rewrite (first_row_find _ _ _ _ Hexact Hrow).
  - intros Hno row Hrow. unfold resolved, match_task_to_database.
    fold task_name_clean. rewrite find_none_iff.
    + now rewrite (first_row_find _ _ _ _ (partial_match_spec task_name_clean) Hrow).
    + intros r Hr. destruct (str_eqb (task_name r) task_name_clean) eqn:E;
        [|reflexivity].
      exfalso. apply (Hno r Hr). now apply Hexact.
  - intros Hno.
    assert (E : resolved = default_task task_name_clean)
      by (now apply match_task_to_database_default).
    rewrite E. repeat split.
Qed.

Lemma match_task_to_database_spec_witness :
  match_task_to_database (of_ascii " river ") [T1; T2] = T2
  /\ is_unregistered (match_task_to_database (of_ascii "lab") [T1; T2]) = Some true.
Proof.
  split.
  - apply (match_task_to_database_spec (of_ascii " river ") [T1; T2]).
    + intros r [<- | [<- | []]]; discriminate.
    + exists [T1], []. split; [reflexivity|]. split.
      * right. exists (of_ascii "T2 "), []. reflexivity.
      * intros r [<- | []] [[pre [post H]] | [pre [post H]]].
        -- destruct pre as [|? [|? [|? [|? [|? [|? ?]]]]]]; discriminate.
        -- destruct pre as [|? [|? [|? ?]]]; discriminate.
  - apply (match_task_to_database_spec (of_ascii "lab") [T1; T2]).
    intros r Hr. split.
    + destruct Hr as [<- | [<- | []]]; discriminate.
    + intros H. apply partial_match_spec in H.
      destruct Hr as [<- | [<- | []]]; discriminate.
Defined.

(* ================================================================= *)
(** ** Dictionaries *)

Section PyDictFacts.
Context {K V : Type}.
Variable K_eq_dec : forall a b : K, {a = b} + {a <> b}.

Local Abbreviation dget := (dict_get K_eq_dec).
Local Abbreviation dset := (dict_set K_eq_dec).
Local Abbreviation dupd := (dict_update K_eq_dec).
Local Abbreviation dmem := (dict_mem K_eq_dec).

Lemma dict_get_None (d : dict K V) (k : K) :
  dget d k = None <-> ~ In k (dict_keys d).
Proof.
  induction d as [|[k' v] d IH]; simpl.
  - tauto.
  - destruct (K_eq_dec k k') as [-> | Hne].
    + split; [discriminate | intros H; exfalso; apply H; now left].
    + rewrite IH. split; [intros H [E | H']; [now apply Hne | now apply H] | tauto].
Qed.

Lemma dict_mem_true (d : dict K V) (k : K) :
  dmem d k = true <-> In k (dict_keys d).
Proof.
  unfold dict_mem. pose proof (dict_get_None d k) as H.
  destruct (dget d k).
  - split; [intros _|reflexivity].
    destruct (in_dec K_eq_dec k (dict_keys d)) as [Hin | Hnin]; [exact Hin|].
    apply H in Hnin. discriminate.
  - split; [discriminate|]. intros Hin. exfalso. now apply (proj1 H eq_refl).
Qed.

Lemma dict_get_In (d : dict K V) (k : K) (v : V) :
  dget d k = Some v -> In (k, v) d.
Proof.
  induction d as [|[k' v'] d IH]; simpl; [discriminate|].
  destruct (K_eq_dec k k') as [-> | Hne].
  - intros H. injection H as ->. now left.
  - intros H. right. now apply IH.
Qed.

Lemma In_dict_get (d : dict K V) (k : K) (v : V) :
  NoDup (dict_keys d) -> In (k, v) d -> dget d k = Some v.
Proof.
  induction d as [|[k' v'] d IH]; simpl; [tauto|].
  intros Hnd [E | Hin].
  - injection E as -> ->. destruct (K_eq_dec k k); [reflexivity | contradiction].
  - inversion Hnd as [|? ? Hk Hd]; subst.
    destruct (K_eq_dec k k') as [-> | Hne].
    + exfalso. apply Hk. change k' with (fst (k', v)). now apply in_map.
    + now apply IH.
Qed.

Lemma dict_keys_set (d : dict K V) (k : K) (v : V) :
  dict_keys (dset d k v) = if dmem d k then dict_keys d else dict_keys d ++ [k].
Proof.
  unfold dict_mem. induction d as [|[k' v'] d IH]; simpl; [reflexivity|].
  destruct (K_eq_dec k k') as [-> | Hne]; simpl; [reflexivity|].
  rewrite IH. now destruct (dget d k).
Qed.

Lemma dict_keys_update (d : dict K V) (k : K) (f : V -> V) :
  dict_keys (dupd d k f) = dict_keys d.
Proof.
  induction d as [|[k' v'] d IH]; simpl; [reflexivity|].
  destruct (K_eq_dec k k'); simpl; [reflexivity | now rewrite IH].
Qed.

Lemma dict_get_set (d : dict K V) (k k' : K) (v : V) :
  dget (dset d k v) k' = if K_eq_dec k' k then Some v else dget d k'.
Proof.
  induction d as [|[k0 v0] d IH]; simpl.
  - reflexivity.
  - destruct (K_eq_dec k k0) as [-> | Hne]; simpl.
    + destruct (K_eq_dec k' k0); reflexivity.
    + rewrite IH. destruct (K_eq_dec k' k0) as [-> | Hne'].
      * destruct (K_eq_dec k0 k) as [-> | _]; [contradiction | reflexivity].
      * reflexivity.
Qed.

Lemma dict_get_update (d : dict K V) (k k' : K) (f : V -> V) :
  dget (dupd d k f) k' =
    if K_eq_dec k' k then option_map f (dget d k') else dget d k'.
Proof.
  induction d as [|[k0 v0] d IH]; simpl.
  - now destruct (K_eq_dec k' k).
  - destruct (K_eq_dec k k0) as [-> | Hne]; simpl.
    + destruct (K_eq_dec k' k0); reflexivity.
    + rewrite IH. destruct (K_eq_dec k' k0) as [-> | Hne'].
      * destruct (K_eq_dec k0 k) as [-> | _]; [contradiction | reflexivity].
      * reflexivity.
Qed.

Lemma NoDup_dict_keys_set (d : dict K V) (k : K) (v : V) :
  NoDup (dict_keys d) -> NoDup (dict_keys (dset d k v)).
Proof.
  intros Hnd. rewrite dict_keys_set. destruct (dmem d k) eqn:E; [exact Hnd|].
  apply NoDup_app; [exact Hnd | repeat constructor; simpl; tauto |].
  intros a Ha [<- | []].
  apply dict_mem_true in Ha. congruence.
Qed.

End PyDictFacts.

(* ================================================================= *)
(** ** Availability *)

Section Availability.
Variable strptime_weekday : pystr -> option Z.

Local Abbreviation is_available := (is_person_available strptime_weekday).
Local Abbreviation available := (available_on strptime_weekday).

Lemma is_person_available_false (p : person) (date_str : pystr) :
  is_available p date_str = Return false <->
  mon_tue_only p = true
  /\ exists weekday,
       strptime_weekday date_str = Some weekday /\ weekday <> 0 /\ weekday <> 1.
Proof.
  unfold is_person_available, mon_tue_only.
  destruct (str_in note_mon_tue_only (get (notes p) [])).
  - destruct (strptime_weekday date_str) as [weekday|].
    + simpl. rewrite orb_false_r.
      destruct (Z.eqb_spec weekday 0) as [-> | H0]; simpl.
      * split; [discriminate | intros [_ [w [E [H _]]]]; congruence].
      * destruct (Z.eqb_spec weekday 1) as [-> | H1]; simpl.
        -- split; [discriminate | intros [_ [w [E [_ H]]]]; congruence].
        -- split; [intros _; split; [reflexivity | now exists weekday] | reflexivity].
    + split; [discriminate | intros [_ [w [E _]]]; discriminate].
  - split; [discriminate | intros [E _]; discriminate].
Qed.

Lemma is_person_available_no_rule (p : person) (date_str : pystr) :
  mon_tue_only p = false -> is_available p date_str = Return true.
Proof.
  unfold is_person_available, mon_tue_only. now intros ->.
Qed.



(** The available workers are the workers for whom the check returns true,
    in registry order. *)
Lemma available_on_In (persons : list person) (date_str : pystr)
    (l : list person) :
  available persons date_str = Return l ->
  forall p, In p l <-> In p persons /\ is_available p date_str = Return true.
Proof.
  revert l; induction persons as [|q persons IH]; simpl; intros l H p.
  - injection H as <-. simpl. tauto.
  - destruct (is_available q date_str) as [ok|] eqn:Eq; [|discriminate].
    simpl in H.
    destruct (available persons date_str) as [l'|] eqn:El; [|discriminate].
    simpl in H. injection H as <-. specialize (IH l' eq_refl p).
    destruct ok; simpl; rewrite IH.
    + split.
      * intros [<- | [H1 H2]]; auto.
      * intros [[<- | H1] H2]; auto.
    + split.
      * intros [H1 H2]; auto.
      * intros [[<- | H1] H2]; [congruence | auto].
Qed.

Lemma available_on_remove (before after : list person) (p : person)
    (date_str : pystr) :
  is_available p date_str = Return false ->
  available (before ++ p :: after) date_str = available (before ++ after) date_str.
Proof.
  intros Hp. induction before as [|q before IH]; simpl.
  - rewrite Hp. simpl. now destruct (available after date_str).
  - now rewrite IH.
Qed.

End Availability.

(* ================================================================= *)
(** ** The result of one day *)

Lemma fold_dict_set_get (tasks_info : list task_info)
    (acc : dict pystr (list pystr)) (k : pystr) :
  dict_get str_eq_dec
    (fold_left (fun result task => dict_set str_eq_dec result (original_name task) [])
               tasks_info acc) k
  = if in_dec str_eq_dec k (map original_name tasks_info) then Some []
    else dict_get str_eq_dec acc k.
Proof.
  revert acc; induction tasks_info as [|t tasks_info IH]; intros acc; simpl.
  - reflexivity.
  - rewrite IH, dict_get_set.
    destruct (in_dec str_eq_dec k (map original_name tasks_info)) as [Hin | Hnin];
      destruct (str_eq_dec (original_name t) k) as [E | Hne];
      destruct (str_eq_dec k (original_name t)) as [E' | Hne'];
      try reflexivity; congruence.
Qed.

Lemma fold_dict_set_NoDup (tasks_info : list task_info)
    (acc : dict pystr (list pystr)) :
  NoDup (dict_keys acc) ->
  NoDup (dict_keys
           (fold_left (fun result task => dict_set str_eq_dec result (original_name task) [])
                      tasks_info acc)).
Proof.
  revert acc; induction tasks_info as [|t tasks_info IH]; intros acc H; simpl.
  - exact H.
  - apply IH. now apply NoDup_dict_keys_set.
Qed.

Lemma empty_result_get (tasks_info : list task_info) (k : pystr) :
  dict_get str_eq_dec (empty_result tasks_info) k
  = if in_dec str_eq_dec k (map original_name tasks_info) then Some [] else None.
Proof. unfold empty_result. now rewrite fold_dict_set_get. Qed.

Lemma empty_result_NoDup (tasks_info : list task_info) :
  NoDup (dict_keys (empty_result tasks_info)).
Proof. apply fold_dict_set_NoDup. constructor. Qed.

Lemma empty_result_In (tasks_info : list task_info) (k : pystr) (v : list pystr) :
  In (k, v) (empty_result tasks_info) ->
  In k (map original_name tasks_info) /\ v = [].
Proof.
  intros H. apply In_dict_get with (K_eq_dec := str_eq_dec) in H;
    [|apply empty_result_NoDup].
  rewrite empty_result_get in H.
  destruct (in_dec str_eq_dec k (map original_name tasks_info)); [|discriminate].
  injection H as <-. auto.
Qed.

Lemma original_name_resolve_tasks (self : SamplingOptimizer)
    (task_list : list pystr) :
  map original_name (resolve_tasks self task_list) = task_list.
Proof.
  unfold resolve_tasks. rewrite map_map. simpl. apply map_id.
Qed.

(** C7: the availability check returns false exactly for a worker with the
    Monday-and-Tuesday-only rule on a date whose weekday is neither; a worker
    without the rule is available on every date; a worker for whom the check
    returns false is not among the day's available workers, and the day is
    optimized exactly as if that worker were not in the registry. *)
Theorem is_person_available_spec (strptime_weekday : pystr -> option Z)
    (solve : LpProblem -> LpStatus * (LpVariable -> Z)) :
  (forall p date_str,
      is_person_available strptime_weekday p date_str = Return false <->
      mon_tue_only p = true
      /\ exists weekday,
           strptime_weekday date_str = Some weekday
           /\ weekday <> 0 /\ weekday <> 1)
  /\ (forall p, mon_tue_only p = false ->
        forall date_str,
          is_person_available strptime_weekday p date_str = Return true)
  /\ (forall self before p after date_str task_list,
        persons self = before ++ p :: after ->
        is_person_available strptime_weekday p date_str = Return false ->
        (forall l, available_on strptime_weekday (persons self) date_str = Return l ->
                   ~ In p l)
        /\ optimize_day strptime_weekday solve self date_str task_list
           = optimize_day strptime_weekday solve
               {| persons := before ++ after; tasks := tasks self |}
               date_str task_list).
Proof.
  split; [|split].
  - apply is_person_available_false.
  - intros p Hp date_str. now apply is_person_available_no_rule.
  - intros self before p after date_str task_list Hself Hp. split.
    + intros l Hl Hin.
      apply (available_on_In _ _ _ _ Hl) in Hin. destruct Hin as [_ Hin].
      congruence.
    + unfold optimize_day. rewrite Hself. cbn [persons tasks].
      rewrite (available_on_remove _ _ _ _ _ Hp).
      unfold resolve_tasks. reflexivity.
Qed.

Lemma is_person_available_spec_witness :
  is_person_available iso_weekday W2 (of_ascii "2025-04-02") = Return false
  /\ optimize_day iso_weekday exhaustive_solve sample_optimizer
       (of_ascii "2025-04-02") [of_ascii "T1"]
     = optimize_day iso_weekday exhaustive_solve
         {| persons := [W1] ++ [W3]; tasks := tasks sample_optimizer |}
         (of_ascii "2025-04-02") [of_ascii "T1"].
Proof.
  assert (H : is_person_available iso_weekday W2 (of_ascii "2025-04-02")
              = Return false).
  { apply (is_person_available_spec iso_weekday exhaustive_solve).
    split; [reflexivity|]. exists 2. repeat split; discriminate. }
  split; [exact H|].
  apply (is_person_available_spec iso_weekday exhaustive_solve)
    with (p := W2); [reflexivity | exact H].
Defined.

(** C8: when no worker is available on the date, [optimize_day] returns,
    without raising, the mapping whose keys are the day's task names and
    whose values are all the empty list. *)
Theorem optimize_day_no_workers (strptime_weekday : pystr -> option Z)
    (solve : LpProblem -> LpStatus * (LpVariable -> Z))
    (self : SamplingOptimizer) (date_str : pystr) (task_list : list pystr) :
  available_on strptime_weekday (persons self) date_str = Return [] ->
  exists result,
    optimize_day strptime_weekday solve self date_str task_list = Return result
    /\ (forall task_name, In task_name task_list ->
          dict_get str_eq_dec result task_name = Some [])
    /\ (forall k v, In (k, v) result -> In k task_list /\ v = []).
Proof.
  intros H. exists (empty_result (resolve_tasks self task_list)).
  split; [|split].
  - unfold optimize_day. rewrite H. reflexivity.
  - intros task_name Hin. rewrite empty_result_get, original_name_resolve_tasks.
    destruct (in_dec str_eq_dec task_name task_list); [reflexivity | contradiction].
  - intros k v Hin. apply empty_result_In in Hin.
    now rewrite original_name_resolve_tasks in Hin.
Qed.

Lemma optimize_day_no_workers_witness :
  exists result,
    optimize_day iso_weekday exhaustive_solve
      {| persons := [W2]; tasks := [T1; T2] |}
      (of_ascii "2025-04-02") [of_ascii "T1"; of_ascii "lab"] = Return result
    /\ (forall task_name, In task_name [of_ascii "T1"; of_ascii "lab"] ->
          dict_get str_eq_dec result task_name = Some [])
    /\ (forall k v, In (k, v) result ->
          In k [of_ascii "T1"; of_ascii "lab"] /\ v = []).
Proof.
  apply (optimize_day_no_workers iso_weekday exhaustive_solve
           {| persons := [W2]; tasks := [T1; T2] |}).
  reflexivity.
Defined.

(* ================================================================= *)
(** ** Grouping and the schedule *)

Lemma group_step_keys {V : Type} (d : dict pystr (list V)) (k : pystr) (x : V) :
  dict_keys
    (dict_update str_eq_dec
       (if negb (dict_mem str_eq_dec d k) then dict_set str_eq_dec d k [] else d)
       k (fun l => l ++ [x]))
  = if dict_mem str_eq_dec d k then dict_keys d else dict_keys d ++ [k].
Proof.
  rewrite dict_keys_update.
  destruct (dict_mem str_eq_dec d k) eqn:E; simpl; [reflexivity|].
  now rewrite dict_keys_set, E.
Qed.

Lemma group_step_In {V : Type} (d : dict pystr (list V)) (k k' : pystr) (x : V) :
  In k' (dict_keys
           (dict_update str_eq_dec
              (if negb (dict_mem str_eq_dec d k) then dict_set str_eq_dec d k [] else d)
              k (fun l => l ++ [x])))
  <-> In k' (dict_keys d) \/ k' = k.
Proof.
  rewrite group_step_keys. destruct (dict_mem str_eq_dec d k) eqn:E.
  - apply dict_mem_true in E. split; [auto | intros [H | ->]; auto].
  - rewrite in_app_iff. simpl. split; [intros [H | [<- | []]]; auto|].
    intros [H | ->]; auto.
Qed.

Lemma group_step_NoDup {V : Type} (d : dict pystr (list V)) (k : pystr) (x : V) :
  NoDup (dict_keys d) ->
  NoDup (dict_keys
           (dict_update str_eq_dec
              (if negb (dict_mem str_eq_dec d k) then dict_set str_eq_dec d k [] else d)
              k (fun l => l ++ [x]))).
Proof.
  intros H. rewrite dict_keys_update.
  destruct (dict_mem str_eq_dec d k); simpl; [exact H|].
  now apply NoDup_dict_keys_set.
Qed.

Lemma get_schedule_by_date_keys (schedule_df : list schedule_row) :
  NoDup (dict_keys (get_schedule_by_date schedule_df))
  /\ forall d, In d (dict_keys (get_schedule_by_date schedule_df))
               <-> In d (map date_str schedule_df).
Proof.
  unfold get_schedule_by_date.
  assert (G : forall rows (acc : dict pystr (list pystr)),
             NoDup (dict_keys acc) ->
             let r := fold_left
                        (fun result row =>
                           let result :=
                             if negb (dict_mem str_eq_dec result (date_str row))
                             then dict_set str_eq_dec result (date_str row) []
                             else result in
                           dict_update str_eq_dec result (date_str row)
                             (fun l => l ++ [sched_task_name row]))
                        rows acc in
             NoDup (dict_keys r)
             /\ forall d, In d (dict_keys r)
                          <-> In d (dict_keys acc) \/ In d (map date_str rows)).
  { induction rows as [|row rows IH]; intros acc Hacc; simpl.
    - split; [exact Hacc | tauto].
    - destruct (IH _ (group_step_NoDup acc (date_str row) (sched_task_name row) Hacc))
        as [H1 H2].
      split; [exact H1|]. intros d. rewrite H2, group_step_In.
      split; [intros [[H | ->] | H] | intros [H | [<- | H]]]; auto. }
  destruct (G schedule_df [] (NoDup_nil _)) as [H1 H2].
  split; [exact H1|]. intros d. rewrite H2. simpl. tauto.
Qed.

Section Schedule.
Variable strptime_weekday : pystr -> option Z.
Variable solve : LpProblem -> LpStatus * (LpVariable -> Z).

Local Abbreviation day := (optimize_day strptime_weekday solve).
Local Abbreviation dates := (optimize_dates strptime_weekday solve).


Lemma optimize_dates_keys (self : SamplingOptimizer)
    (items : list (pystr * list pystr)) :
  forall acc r,
    dates self items acc = Return r ->
    NoDup (dict_keys acc) ->
    NoDup (dict_keys r)
    /\ forall d, In d (dict_keys r) <-> In d (dict_keys acc) \/ In d (map fst items).
Proof.
  induction items as [|[date_str task_list] items IH]; intros acc r H Hacc; simpl in *.
  - injection H as <-. split; [exact Hacc | tauto].
  - destruct (day self date_str task_list) as [day_result|]; [|discriminate].
    simpl in H.
    destruct (IH _ _ H (NoDup_dict_keys_set str_eq_dec acc date_str day_result Hacc))
      as [H1 H2].
    split; [exact H1|]. intros d. rewrite H2, dict_keys_set.
    destruct (dict_mem str_eq_dec acc date_str) eqn:E.
    + apply dict_mem_true in E.
      split; [intros [H3 | H3]; auto | intros [H3 | [<- | H3]]; auto].
    + rewrite in_app_iff. simpl.
      split; [intros [[H3 | [<- | []]] | H3]; auto | intros [H3 | [<- | H3]]; auto].
Qed.


Lemma optimize_dates_get_other (self : SamplingOptimizer)
    (items : list (pystr * list pystr)) (d : pystr) :
  ~ In d (map fst items) ->
  forall acc r,
    dates self items acc = Return r ->
    dict_get str_eq_dec r d = dict_get str_eq_dec acc d.
Proof.
  induction items as [|[date_str task_list] items IH]; intros Hd acc r H; simpl in *.
  - now injection H as <-.
  - destruct (day self date_str task_list) as [day_result|]; [|discriminate].
    simpl in H. rewrite (IH (fun Hin => Hd (or_intror Hin)) _ _ H), dict_get_set.
    destruct (str_eq_dec d date_str) as [-> | _]; [|reflexivity].
    exfalso. apply Hd. now left.
Qed.

(** Each date of the aggregate holds what [optimize_day] returned for it. *)
Lemma optimize_dates_get (self : SamplingOptimizer)
    (items : list (pystr * list pystr)) :
  NoDup (map fst items) ->
  forall acc r,
    dates self items acc = Return r ->
    forall date_str task_list,
      In (date_str, task_list) items ->
      exists day_result,
        day self date_str task_list = Return day_result
        /\ dict_get str_eq_dec r date_str = Some day_result.
Proof.
  induction items as [|[d tl] items IH]; intros Hnd acc r H date_str task_list Hin;
    simpl in *; [contradiction|].
  inversion Hnd as [|? ? Hd Hnd']; subst.
  destruct (day self d tl) as [day_result|] eqn:Eday; [|discriminate].
  simpl in H. destruct Hin as [E | Hin].
  - injection E as <- <-. exists day_result. split; [exact Eday|].
    rewrite (optimize_dates_get_other self items d Hd _ _ H), dict_get_set.
    destruct (str_eq_dec d d); [reflexivity | contradiction].
  - exact (IH Hnd' _ _ H _ _ Hin).
Qed.

End Schedule.



(* ================================================================= *)
(** ** Extraction of the solved variables *)

Lemma fold_left_id {A B : Type} (f : A -> B -> A) (l : list B) (a : A) :
  (forall x, In x l -> forall a', f a' x = a') -> fold_left f l a = a.
Proof.
  revert a; induction l as [|x l IH]; intros a H; simpl; [reflexivity|].
  rewrite (H x (or_introl eq_refl)). apply IH. intros y Hy. apply H. now right.
Qed.

Lemma fold_left_ext_in {A B : Type} (f g : A -> B -> A) (l : list B) (a : A) :
  (forall x, In x l -> forall a', f a' x = g a' x) ->
  fold_left f l a = fold_left g l a.
Proof.
  revert a; induction l as [|x l IH]; intros a H; simpl; [reflexivity|].
  rewrite (H x (or_introl eq_refl)). apply IH. intros y Hy. apply H. now right.
Qed.


Lemma extract_result_unset (value : LpVariable -> Z)
    (available_persons : list person) (tasks_info : list task_info)
    (result : dict pystr (list pystr)) :
  (forall p_idx t_idx, gt_half (value (X p_idx t_idx)) = false) ->
  extract_result value available_persons tasks_info result = result.
Proof.
  intros H. unfold extract_result.
  apply fold_left_id. intros [p_idx p] _ r.
  apply fold_left_id. intros [t_idx t] _ r'. now rewrite H.
Qed.

Lemma extract_result_keys (value : LpVariable -> Z)
    (available_persons : list person) (tasks_info : list task_info)
    (result : dict pystr (list pystr)) :
  dict_keys (extract_result value available_persons tasks_info result)
  = dict_keys result.
Proof.
  unfold extract_result.
  assert (Inner : forall p_idx (p : person) (l : list (nat * task_info)) r,
             dict_keys
               (fold_left
                  (fun result '(t_idx, task) =>
                     if gt_half (value (X p_idx t_idx))
                     then dict_update str_eq_dec result (original_name task)
                                      (fun l => l ++ [name p])
                     else result) l r)
             = dict_keys r).
  { intros p_idx p l. induction l as [|[t_idx t] l IH]; intros r; simpl.
    - reflexivity.
    - rewrite IH. destruct (gt_half _); [apply dict_keys_update | reflexivity]. }
  generalize (enumerate available_persons) as l. intros l. revert result.
  induction l as [|[p_idx p] l IH]; intros r; simpl; [reflexivity|].
  now rewrite IH, Inner.
Qed.

Section Day.
Variable strptime_weekday : pystr -> option Z.
Variable solve : LpProblem -> LpStatus * (LpVariable -> Z).

Lemma assign_day_keys (available_persons : list person)
    (tasks_info : list task_info) :
  dict_keys (assign_day solve available_persons tasks_info)
  = dict_keys (empty_result tasks_info).
Proof.
  unfold assign_day. destruct available_persons as [|p l]; [reflexivity|].
  destruct (solve _) as [status value].
  destruct (LpStatus_eqb status LpStatusOptimal);
    [apply extract_result_keys | reflexivity].
Qed.

Lemma assign_day_not_optimal (available_persons : list person)
    (tasks_info : list task_info) :
  fst (solve (build_problem available_persons tasks_info)) <> LpStatusOptimal ->
  assign_day solve available_persons tasks_info = empty_result tasks_info.
Proof.
  unfold assign_day. destruct available_persons as [|p l]; [reflexivity|].
  destruct (solve _) as [status value]. simpl.
  destruct status; simpl; try reflexivity. contradiction.
Qed.

Lemma assign_day_unset (available_persons : list person)
    (tasks_info : list task_info) :
  (forall p_idx t_idx,
      gt_half (snd (solve (build_problem available_persons tasks_info))
                   (X p_idx t_idx)) = false) ->
  assign_day solve available_persons tasks_info = empty_result tasks_info.
Proof.
  unfold assign_day. destruct available_persons as [|p l]; [reflexivity|].
  destruct (solve _) as [status value]. simpl. intros H.
  destruct (LpStatus_eqb status LpStatusOptimal); [|reflexivity].
  now apply extract_result_unset.
Qed.

End Day.


(** C1, as the code has it: when the solver's status is anything but
    [Optimal], [optimize_day] returns the mapping of every task name to the
    empty list, which is also what it returns after a successful solve that
    assigns nobody; [optimize_schedule] files that mapping under the date. *)
Theorem optimize_day_solver_failure (strptime_weekday : pystr -> option Z)
    (solve : LpProblem -> LpStatus * (LpVariable -> Z))
    (self : SamplingOptimizer) (date_str : pystr) (task_list : list pystr)
    (available_persons : list person) :
  available_on strptime_weekday (persons self) date_str = Return available_persons ->
  fst (solve (build_problem available_persons (resolve_tasks self task_list)))
    <> LpStatusOptimal ->
  optimize_day strptime_weekday solve self date_str task_list
    = Return (empty_result (resolve_tasks self task_list))
  /\ (forall schedule_df all_results,
        optimize_schedule strptime_weekday solve self schedule_df = Return all_results ->
        dict_get str_eq_dec (get_schedule_by_date schedule_df) date_str = Some task_list ->
        dict_get str_eq_dec all_results date_str
          = Some (empty_result (resolve_tasks self task_list)))
  /\ (forall solve',
        fst (solve' (build_problem available_persons (resolve_tasks self task_list)))
          = LpStatusOptimal ->
        (forall p_idx t_idx,
            gt_half (snd (solve' (build_problem available_persons
                                                (resolve_tasks self task_list)))
                         (X p_idx t_idx)) = false) ->
        optimize_day strptime_weekday solve' self date_str task_list
          = Return (empty_result (resolve_tasks self task_list))).
Proof.
  intros Havail Hstatus.
  assert (Hday : optimize_day strptime_weekday solve self date_str task_list
                 = Return (empty_result (resolve_tasks self task_list))).
  { unfold optimize_day. rewrite Havail. simpl.
    now rewrite assign_day_not_optimal. }
  split; [exact Hday|]. split.
  - intros schedule_df all_results Hall Hget.
    destruct (get_schedule_by_date_keys schedule_df) as [Hnd _].
    destruct (optimize_dates_get strptime_weekday solve self _ Hnd _ _ Hall
                date_str task_list (dict_get_In _ _ _ _ Hget))
      as [day_result [H1 H2]].
    rewrite Hday in H1. injection H1 as <-. exact H2.
  - intros solve' _ Hunset. unfold optimize_day. rewrite Havail. simpl.
    now rewrite assign_day_unset.
Qed.

Lemma optimize_day_solver_failure_witness :
  optimize_day iso_weekday failing_solve unfit_optimizer
    (of_ascii "2025-04-01") [of_ascii "T2 river"]
  = Return [(of_ascii "T2 river", [])].
Proof.
  refine (proj1 (optimize_day_solver_failure iso_weekday failing_solve
                   unfit_optimizer (of_ascii "2025-04-01") [of_ascii "T2 river"]
                   [W2] _ _)).
  - reflexivity.
  - discriminate.
Defined.

(** C1 as stated fails: on this day the solver that reports [Infeasible]
    and the solver that succeeds and assigns nobody leave the caller with
    the same day result and the same aggregate. *)
Lemma solver_failure_not_distinguished :
  fst (failing_solve
         (build_problem [W2] (resolve_tasks unfit_optimizer [of_ascii "T2 river"])))
    = LpStatusInfeasible
  /\ fst (exhaustive_solve
            (build_problem [W2] (resolve_tasks unfit_optimizer [of_ascii "T2 river"])))
       = LpStatusOptimal
  /\ optimize_day iso_weekday failing_solve unfit_optimizer
       (of_ascii "2025-04-01") [of_ascii "T2 river"]
     = optimize_day iso_weekday exhaustive_solve unfit_optimizer
         (of_ascii "2025-04-01") [of_ascii "T2 river"]
  /\ optimize_schedule iso_weekday failing_solve unfit_optimizer unfit_schedule
     = optimize_schedule iso_weekday exhaustive_solve unfit_optimizer unfit_schedule
  /\ optimize_schedule iso_weekday failing_solve unfit_optimizer unfit_schedule
     = Return [(of_ascii "2025-04-01", [(of_ascii "T2 river", [])])].
Proof.
  repeat split; vm_compute; reflexivity.
Qed.

(* ================================================================= *)
(** ** The unregistered flag *)











(* ================================================================= *)
(** ** Sums *)

Lemma zsum_app (l1 l2 : list Z) : zsum (l1 ++ l2) = zsum l1 + zsum l2.
Proof.
  induction l1 as [|a l1 IH]; simpl; [reflexivity | rewrite IH; lia].
Qed.

Lemma zsum_map_add {A : Type} (f g : A -> Z) (l : list A) :
  zsum (map (fun a => f a + g a) l) = zsum (map f l) + zsum (map g l).
Proof.
  induction l as [|a l IH]; simpl; [reflexivity | rewrite IH; lia].
Qed.

Lemma zsum_map_le {A : Type} (f g : A -> Z) (l : list A) :
  (forall a, In a l -> f a <= g a) -> zsum (map f l) <= zsum (map g l).
Proof.
  induction l as [|a l IH]; intros H; simpl; [lia|].
  pose proof (H a (or_introl eq_refl)).
  assert (zsum (map f l) <= zsum (map g l)) by (apply IH; intros; apply H; now right).
  lia.
Qed.

Lemma zsum_map_zero {A : Type} (f : A -> Z) (l : list A) :
  (forall a, In a l -> f a = 0) -> zsum (map f l) = 0.
Proof.
  induction l as [|a l IH]; intros H; simpl; [reflexivity|].
  rewrite (H a (or_introl eq_refl)), IH; [reflexivity|].
  intros; apply H; now right.
Qed.

Lemma zsum_map_nonneg {A : Type} (f : A -> Z) (l : list A) :
  (forall a, In a l -> 0 <= f a) -> 0 <= zsum (map f l).
Proof.
  intros H. rewrite <- (zsum_map_zero (fun _ : A => 0) l) by reflexivity.
  now apply zsum_map_le.
Qed.

Lemma zsum_swap {A B : Type} (h : A -> B -> Z) (la : list A) (lb : list B) :
  zsum (map (fun a => zsum (map (fun b => h a b) lb)) la)
  = zsum (map (fun b => zsum (map (fun a => h a b) la)) lb).
Proof.
  induction la as [|a la IH]; simpl.
  - symmetry. now apply zsum_map_zero.
  - rewrite IH. now rewrite <- zsum_map_add.
Qed.

Lemma zsum_map_filter {A : Type} (c : A -> bool) (g : A -> Z) (l : list A) :
  zsum (map (fun a => if c a then g a else 0) l) = zsum (map g (filter c l)).
Proof.
  induction l as [|a l IH]; simpl; [reflexivity|].
  destruct (c a); simpl; rewrite IH; lia.
Qed.

Lemma zsum_one {A : Type} (f : A -> Z) (l : list A) (a : A) :
  (forall x, In x l -> 0 <= f x) -> In a l -> f a <= zsum (map f l).
Proof.
  induction l as [|b l IH]; intros Hpos Hin; simpl; [contradiction|].
  assert (0 <= zsum (map f l))
    by (apply zsum_map_nonneg; intros; apply Hpos; now right).
  destruct Hin as [-> | Hin].
  - lia.
  - assert (f a <= zsum (map f l)) by (apply IH; auto; intros; apply Hpos; now right).
    pose proof (Hpos b (or_introl eq_refl)). lia.
Qed.

Lemma zsum_two {A : Type} (f : A -> Z) (l : list A) (a b : A) :
  NoDup l -> (forall x, In x l -> 0 <= f x) ->
  In a l -> In b l -> a <> b -> f a + f b <= zsum (map f l).
Proof.
  induction l as [|c l IH]; intros Hnd Hpos Ha Hb Hab; simpl; [contradiction|].
  inversion Hnd as [|? ? Hc Hnd']; subst.
  assert (Hpos' : forall x, In x l -> 0 <= f x) by (intros; apply Hpos; now right).
  pose proof (Hpos c (or_introl eq_refl)).
  destruct Ha as [-> | Ha], Hb as [-> | Hb].
  - contradiction.
  - pose proof (zsum_one f l b Hpos' Hb). lia.
  - pose proof (zsum_one f l a Hpos' Ha). lia.
  - pose proof (IH Hnd' Hpos' Ha Hb Hab). lia.
Qed.

Lemma length_flat_map_zsum {A B : Type} (f : A -> list B) (l : list A) :
  Z.of_nat (List.length (flat_map f l))
  = zsum (map (fun a => Z.of_nat (List.length (f a))) l).
Proof.
  induction l as [|a l IH]; simpl; [reflexivity|].
  rewrite length_app, Nat2Z.inj_add, IH. reflexivity.
Qed.

Lemma length_filter_zsum {A : Type} (c : A -> bool) (l : list A) :
  Z.of_nat (List.length (filter c l)) = zsum (map (fun a => if c a then 1 else 0) l).
Proof.
  induction l as [|a l IH]; [reflexivity|].
  cbn [filter map]. unfold zsum in *. cbn [fold_right].
  destruct (c a); cbn [List.length]; rewrite ?Nat2Z.inj_succ; lia.
Qed.

Lemma map_fst_enumerate {A : Type} (l : list A) :
  map fst (enumerate l) = seq 0 (List.length l).
Proof.
  unfold enumerate. generalize 0%nat as s.
  induction l as [|a l IH]; intros s; simpl; [reflexivity | now rewrite IH].
Qed.

Lemma map_snd_enumerate {A : Type} (l : list A) :
  map snd (enumerate l) = l.
Proof.
  unfold enumerate. generalize 0%nat as s.
  induction l as [|a l IH]; intros s; simpl; [reflexivity | now rewrite IH].
Qed.

(* ================================================================= *)
(** ** What the extraction loop puts under each key *)

Lemma extract_result_get (value : LpVariable -> Z)
    (available_persons : list person) (tasks_info : list task_info)
    (result : dict pystr (list pystr)) (k : pystr) :
  dict_get str_eq_dec (extract_result value available_persons tasks_info result) k
  = option_map (fun l => l ++ assigned_under value available_persons tasks_info k)
               (dict_get str_eq_dec result k).
Proof.
  unfold extract_result, assigned_under.
  assert (Inner : forall p_idx (p : person) (lt : list (nat * task_info)) r,
             dict_get str_eq_dec
               (fold_left
                  (fun result '(t_idx, task) =>
                     if gt_half (value (X p_idx t_idx))
                     then dict_update str_eq_dec result (original_name task)
                                      (fun l => l ++ [name p])
                     else result) lt r) k
             = option_map
                 (fun l => l ++ flat_map
                                  (fun '(t_idx, task) =>
                                     if gt_half (value (X p_idx t_idx))
                                        && str_eqb (original_name task) k
                                     then [name p] else []) lt)
                 (dict_get str_eq_dec r k)).
  { intros p_idx p lt. induction lt as [|[t_idx t] lt IH]; intros r; simpl.
    - destruct (dict_get str_eq_dec r k); simpl; [now rewrite app_nil_r | reflexivity].
    - rewrite IH. unfold str_eqb.
      destruct (gt_half (value (X p_idx t_idx))); simpl.
      + rewrite dict_get_update.
        destruct (str_eq_dec k (original_name t)) as [-> | Hne].
        * destruct (str_eq_dec (original_name t) (original_name t)); [|contradiction].
          destruct (dict_get str_eq_dec r (original_name t)); simpl;
            [now rewrite <- app_assoc | reflexivity].
        * destruct (str_eq_dec (original_name t) k); [congruence | reflexivity].
      + reflexivity. }
  generalize (enumerate available_persons) as lp. intros lp. revert result.
  induction lp as [|[p_idx p] lp IH]; intros r; simpl.
  - destruct (dict_get str_eq_dec r k); simpl; [now rewrite app_nil_r | reflexivity].
  - rewrite IH, Inner.
    destruct (dict_get str_eq_dec r k); simpl; [now rewrite <- app_assoc | reflexivity].
Qed.

Lemma In_assigned_under (value : LpVariable -> Z)
    (available_persons : list person) (tasks_info : list task_info)
    (k w : pystr) :
  In w (assigned_under value available_persons tasks_info k) ->
  exists p_idx p t_idx t,
    nth_error available_persons p_idx = Some p
    /\ nth_error tasks_info t_idx = Some t
    /\ gt_half (value (X p_idx t_idx)) = true
    /\ original_name t = k
    /\ name p = w.
Proof.
  unfold assigned_under. intros H.
  apply in_flat_map in H as [[p_idx p] [Hp H]].
  apply in_flat_map in H as [[t_idx t] [Ht H]].
  destruct (gt_half (value (X p_idx t_idx))) eqn:Eset; [|contradiction].
  destruct (str_eqb (original_name t) k) eqn:Ek; [|contradiction].
  destruct H as [<- | []].
  apply in_enumerate in Hp. apply in_enumerate in Ht. apply str_eqb_eq in Ek.
  now exists p_idx, p, t_idx, t.
Qed.

(* ================================================================= *)
(** ** The areas of a day *)

Lemma group_step_get {V : Type} (d : dict pystr (list V)) (k k' : pystr) (x : V) :
  dict_get str_eq_dec
    (dict_update str_eq_dec
       (if negb (dict_mem str_eq_dec d k) then dict_set str_eq_dec d k [] else d)
       k (fun l => l ++ [x])) k'
  = if str_eq_dec k' k
    then Some (get (dict_get str_eq_dec d k) [] ++ [x])
    else dict_get str_eq_dec d k'.
Proof.
  rewrite dict_get_update. unfold dict_mem.
  destruct (str_eq_dec k' k) as [-> | Hne].
  - destruct (dict_get str_eq_dec d k) eqn:E; simpl.
    + now rewrite E.
    + rewrite dict_get_set. destruct (str_eq_dec k k); [reflexivity | contradiction].
  - destruct (dict_get str_eq_dec d k); simpl; [reflexivity|].
    rewrite dict_get_set. destruct (str_eq_dec k' k); [contradiction | reflexivity].
Qed.

(** Every task index is filed under the area of its task, and no area is
    listed twice. *)
Lemma group_by_area_spec (tasks_info : list task_info) :
  NoDup (dict_keys (group_by_area tasks_info))
  /\ forall t_idx t,
       nth_error tasks_info t_idx = Some t ->
       exists t_indices,
         In (area_of (info t), t_indices) (group_by_area tasks_info)
         /\ In t_idx t_indices.
Proof.
  unfold group_by_area.
  set (step := fun (area_tasks : dict pystr (list nat)) '(t_idx, task) =>
                 let area := get (area (info task)) area_unknown in
                 let area_tasks :=
                   if negb (dict_mem str_eq_dec area_tasks area)
                   then dict_set str_eq_dec area_tasks area []
                   else area_tasks in
                 dict_update str_eq_dec area_tasks area (fun l => l ++ [t_idx])).
  assert (G : forall (l : list (nat * task_info)) acc,
             NoDup (dict_keys acc) ->
             NoDup (dict_keys (fold_left step l acc))
             /\ (forall a i idxs,
                    dict_get str_eq_dec acc a = Some idxs -> In i idxs ->
                    exists idxs',
                      dict_get str_eq_dec (fold_left step l acc) a = Some idxs'
                      /\ In i idxs')
             /\ (forall i t, In (i, t) l ->
                    exists idxs',
                      dict_get str_eq_dec (fold_left step l acc) (area_of (info t))
                        = Some idxs'
                      /\ In i idxs')).
  { induction l as [|[j u] l IH]; intros acc Hacc.
    - simpl. split; [exact Hacc|]. split; [|contradiction].
      intros a i idxs H1 H2. now exists idxs.
    - cbn [fold_left].
      assert (Hnd : NoDup (dict_keys (step acc (j, u))))
        by (apply group_step_NoDup; exact Hacc).
      destruct (IH _ Hnd) as [H1 [H2 H3]].
      split; [exact H1|]. split.
      + intros a i idxs Ha Hi.
        assert (exists idxs0,
                   dict_get str_eq_dec (step acc (j, u)) a = Some idxs0
                   /\ In i idxs0) as [idxs0 [E0 Hi0]].
        { unfold step. rewrite group_step_get.
          destruct (str_eq_dec a (get (area (info u)) area_unknown)) as [-> | Hne].
          - rewrite Ha. simpl. eexists. split; [reflexivity|].
            apply in_or_app. now left.
          - now exists idxs. }
        exact (H2 a i idxs0 E0 Hi0).
      + intros i t [E | Hin].
        * injection E as -> ->.
          apply (H2 (area_of (info t)) i
                    (get (dict_get str_eq_dec acc (area_of (info t))) [] ++ [i])).
          -- unfold step. rewrite group_step_get. unfold area_of.
             destruct (str_eq_dec _ _); [reflexivity | contradiction].
          -- apply in_or_app. right. now left.
        * exact (H3 i t Hin). }
  destruct (G (enumerate tasks_info) [] (NoDup_nil _)) as [H1 [_ H3]].
  split; [exact H1|].
  intros t_idx t Ht. apply in_enumerate in Ht.
  destruct (H3 t_idx t Ht) as [idxs [E Hi]].
  exists idxs. split; [|exact Hi]. now apply dict_get_In in E.
Qed.

(* ================================================================= *)
(** ** What a solution of the day's model satisfies *)

Section Feasible.
Variable available_persons : list person.
Variable tasks_info : list task_info.
Variable value : LpVariable -> Z.
Hypothesis Hfeasible :
  feasible (build_problem available_persons tasks_info) value = true.

Lemma feasible_binary (v : LpVariable) :
  In v (binaries (build_problem available_persons tasks_info)) ->
  0 <= value v <= 1.
Proof.
  intros Hin. unfold feasible in Hfeasible.
  apply andb_true_iff in Hfeasible as [Hb _].
  rewrite forallb_forall in Hb. specialize (Hb v Hin).
  unfold is_binary in Hb. apply andb_true_iff in Hb as [H0 H1]. lia.
Qed.

Lemma feasible_constraint (c : LpConstraint) :
  In c (constraints (build_problem available_persons tasks_info)) ->
  constraint_holds value c = true.
Proof.
  intros Hin. unfold feasible in Hfeasible.
  apply andb_true_iff in Hfeasible as [_ Hc].
  rewrite forallb_forall in Hc. exact (Hc c Hin).
Qed.

Lemma feasible_x (p_idx t_idx : nat) (t : task_info) :
  (p_idx < List.length available_persons)%nat ->
  nth_error tasks_info t_idx = Some t ->
  0 <= value (X p_idx t_idx) <= 1.
Proof.
  intros Hp Ht. apply feasible_binary. cbn [build_problem binaries].
  apply in_or_app. left.
  destruct (nth_error available_persons p_idx) as [p|] eqn:Ep;
    [|apply nth_error_None in Ep; lia].
  apply in_flat_map. exists (p_idx, p). split; [now apply in_enumerate|].
  apply in_map_iff. exists (t_idx, t). split; [reflexivity | now apply in_enumerate].
Qed.

Lemma feasible_y (p_idx : nat) (a : pystr) :
  (p_idx < List.length available_persons)%nat ->
  In a (dict_keys (group_by_area tasks_info)) ->
  0 <= value (Y p_idx a) <= 1.
Proof.
  intros Hp Ha. apply feasible_binary. cbn [build_problem binaries].
  apply in_or_app. right.
  apply in_flat_map. exists p_idx. split; [apply in_seq; lia|].
  apply in_map_iff. now exists a.
Qed.

(** The capacity constraint, read on the solution. *)
Lemma feasible_capacity (t_idx : nat) (t : task_info) :
  nth_error tasks_info t_idx = Some t ->
  workers_on value (List.length available_persons) t_idx <= required_of (info t).
Proof.
  intros Ht.
  assert (Hc : constraint_holds value
                 (LpSumLe (map (fun p_idx => X p_idx t_idx)
                               (seq 0 (List.length available_persons)))
                          (required_of (info t))) = true).
  { apply feasible_constraint. cbn [build_problem constraints].
    apply in_or_app. right. apply in_or_app. right.
    apply in_map_iff. exists (t_idx, t). split; [reflexivity | now apply in_enumerate]. }
  simpl in Hc. apply Z.leb_le in Hc. rewrite map_map in Hc.
  unfold workers_on. rewrite length_filter_zsum.
  eapply Z.le_trans; [|exact Hc].
  apply zsum_map_le. intros p_idx Hp. apply in_seq in Hp.
  pose proof (feasible_x p_idx t_idx t (proj2 Hp) Ht) as Hx.
  unfold gt_half. destruct (Z.gtb_spec (2 * value (X p_idx t_idx)) 1); lia.
Qed.

(** The one-area and linking constraints, read on the solution. *)
Lemma feasible_one_area (p_idx t1 t2 : nat) (task1 task2 : task_info) :
  (p_idx < List.length available_persons)%nat ->
  nth_error tasks_info t1 = Some task1 ->
  nth_error tasks_info t2 = Some task2 ->
  gt_half (value (X p_idx t1)) = true ->
  gt_half (value (X p_idx t2)) = true ->
  area_of (info task1) = area_of (info task2).
Proof.
  intros Hp Ht1 Ht2 Hx1 Hx2.
  destruct (group_by_area_spec tasks_info) as [Hnd Hgroup].
  assert (Hlink : forall t task,
             nth_error tasks_info t = Some task ->
             gt_half (value (X p_idx t)) = true ->
             In (area_of (info task)) (dict_keys (group_by_area tasks_info))
             /\ 1 <= value (Y p_idx (area_of (info task)))).
  { intros t task Ht Hx.
    destruct (Hgroup t task Ht) as [idxs [Harea Hidx]].
    split; [change (area_of (info task)) with (fst (area_of (info task), idxs));
            now apply in_map|].
    assert (Hc : constraint_holds value
                   (LpVarLe (X p_idx t) (Y p_idx (area_of (info task)))) = true).
    { apply feasible_constraint. cbn [build_problem constraints].
      apply in_or_app. right. apply in_or_app. left.
      apply in_flat_map. exists p_idx. split; [apply in_seq; lia|].
      apply in_flat_map. exists (area_of (info task), idxs). split; [exact Harea|].
      apply in_map_iff. now exists t. }
    simpl in Hc. apply Z.leb_le in Hc.
    unfold gt_half in Hx. apply Z.gtb_lt in Hx. lia. }
  destruct (Hlink t1 task1 Ht1 Hx1) as [Ha1 Hy1].
  destruct (Hlink t2 task2 Ht2 Hx2) as [Ha2 Hy2].
  destruct (str_eq_dec (area_of (info task1)) (area_of (info task2))) as [E | Hne];
    [exact E | exfalso].
  assert (Hc : constraint_holds value
                 (LpSumLe (map (fun area => Y p_idx area)
                               (dict_keys (group_by_area tasks_info))) 1) = true).
  { apply feasible_constraint. cbn [build_problem constraints].
    apply in_or_app. left.
    apply in_map_iff. exists p_idx. split; [reflexivity | apply in_seq; lia]. }
  simpl in Hc. apply Z.leb_le in Hc. rewrite map_map in Hc.
  pose proof (zsum_two (fun area => value (Y p_idx area))
                (dict_keys (group_by_area tasks_info))
                (area_of (info task1)) (area_of (info task2)) Hnd
                (fun a Ha => proj1 (feasible_y p_idx a Hp Ha)) Ha1 Ha2 Hne) as H2.
  simpl in H2. lia.
Qed.

End Feasible.

(* ================================================================= *)
(** ** Capacity *)

Lemma zsum_map_ext_in {A : Type} (f g : A -> Z) (l : list A) :
  (forall a, In a l -> f a = g a) -> zsum (map f l) = zsum (map g l).
Proof. intros H. f_equal. now apply map_ext_in. Qed.

Lemma assigned_under_length (available_persons : list person)
    (tasks_info : list task_info) (value : LpVariable -> Z) (k : pystr) :
  feasible (build_problem available_persons tasks_info) value = true ->
  Z.of_nat (List.length (assigned_under value available_persons tasks_info k))
  <= zsum (map (fun t => required_of (info t))
               (filter (fun t => str_eqb (original_name t) k) tasks_info)).
Proof.
  intros Hfeasible.
  set (h := fun (ip : nat * person) (it : nat * task_info) =>
              if gt_half (value (X (fst ip) (fst it)))
                 && str_eqb (original_name (snd it)) k
              then 1 else 0).
  assert (E : Z.of_nat (List.length
                          (assigned_under value available_persons tasks_info k))
              = zsum (map (fun ip => zsum (map (fun it => h ip it)
                                               (enumerate tasks_info)))
                          (enumerate available_persons))).
  { unfold assigned_under. rewrite length_flat_map_zsum.
    apply zsum_map_ext_in. intros [p_idx p] _.
    rewrite length_flat_map_zsum.
    apply zsum_map_ext_in. intros [t_idx t] _. unfold h. simpl.
    now destruct (gt_half _ && str_eqb _ _). }
  rewrite E, (zsum_swap h).
  rewrite <- zsum_map_filter.
  rewrite <- (map_snd_enumerate tasks_info) at 2. rewrite map_map.
  apply zsum_map_le. intros [t_idx t] Ht. apply in_enumerate in Ht.
  unfold h. simpl.
  destruct (str_eqb (original_name t) k).
  - pose proof (feasible_capacity _ _ _ Hfeasible t_idx t Ht) as Hcap.
    unfold workers_on in Hcap. rewrite length_filter_zsum in Hcap.
    rewrite <- map_fst_enumerate, map_map in Hcap.
    eapply Z.le_trans; [|exact Hcap].
    apply Z.eq_le_incl. apply zsum_map_ext_in. intros [p_idx p] _. simpl.
    now rewrite andb_true_r.
  - apply Z.eq_le_incl. apply zsum_map_zero. intros ip _.
    now rewrite andb_false_r.
Qed.

Lemma match_task_to_database_In (display_name : pystr)
    (database_df : list task_dict) :
  In (match_task_to_database display_name database_df) database_df
  \/ match_task_to_database display_name database_df
     = default_task (strip display_name).
Proof.
  unfold match_task_to_database.
  destruct (find _ database_df) as [row|] eqn:E1.
  - left. now apply find_some in E1.
  - destruct (find (partial_match _) database_df) as [row|] eqn:E2.
    + left. now apply find_some in E2.
    + now right.
Qed.

Lemma resolve_tasks_In (self : SamplingOptimizer) (task_list : list pystr)
    (t : task_info) :
  In t (resolve_tasks self task_list) ->
  info t = match_task_to_database (original_name t) (tasks self)
  /\ In (original_name t) task_list.
Proof.
  unfold resolve_tasks. intros H. apply in_map_iff in H as [n [<- Hn]].
  simpl. auto.
Qed.

Lemma filter_name_once (task_list : list pystr) (k : pystr) :
  count_occ str_eq_dec task_list k = 1%nat ->
  filter (fun n => str_eqb n k) task_list = [k].
Proof.
  assert (G : forall l, filter (fun n => str_eqb n k) l
                        = repeat k (count_occ str_eq_dec l k)).
  { induction l as [|n l IH]; [reflexivity|].
    cbn [filter count_occ]. rewrite IH. unfold str_eqb.
    now destruct (str_eq_dec n k) as [-> | Hne]. }
  intros H. now rewrite G, H.
Qed.

Lemma filter_resolve_tasks (self : SamplingOptimizer) (task_list : list pystr)
    (k : pystr) :
  filter (fun t => str_eqb (original_name t) k) (resolve_tasks self task_list)
  = resolve_tasks self (filter (fun n => str_eqb n k) task_list).
Proof.
  unfold resolve_tasks. induction task_list as [|n l IH]; simpl; [reflexivity|].
  destruct (str_eqb n k); simpl; now rewrite IH.
Qed.

(** What [assign_day] leaves under a key: nothing, or the names extracted
    from a solution of the day's model. *)
Lemma assign_day_get (solve : LpProblem -> LpStatus * (LpVariable -> Z))
    (available_persons : list person) (tasks_info : list task_info)
    (k : pystr) (workers : list pystr) :
  solver_sound_on solve (build_problem available_persons tasks_info) ->
  dict_get str_eq_dec (assign_day solve available_persons tasks_info) k
    = Some workers ->
  workers = []
  \/ (fst (solve (build_problem available_persons tasks_info)) = LpStatusOptimal
      /\ feasible (build_problem available_persons tasks_info)
                  (snd (solve (build_problem available_persons tasks_info))) = true
      /\ workers = assigned_under
                     (snd (solve (build_problem available_persons tasks_info)))
                     available_persons tasks_info k).
Proof.
  unfold solver_sound_on, assign_day. intros Hsound.
  assert (Hempty : dict_get str_eq_dec (empty_result tasks_info) k = Some workers ->
                   workers = []).
  { rewrite empty_result_get. destruct (in_dec _ _ _); [|discriminate].
    now intros H; injection H as <-. }
  destruct available_persons as [|p l]; [intros H; left; now apply Hempty|].
  destruct (solve (build_problem (p :: l) tasks_info)) as [status value].
  simpl in Hsound |- *.
  destruct status; simpl; try (intros H; left; now apply Hempty).
  rewrite extract_result_get, empty_result_get.
  destruct (in_dec _ _ _); [|discriminate]. simpl.
  intros H. injection H as <-. right. auto.
Qed.

(** C3, as the code has it: with a solver whose [Optimal] answers satisfy
    the model, every task slot of the day gets at most its
    [required_workers]; the list returned under a display name holds at most
    the sum of [required_workers] over the slots of the day that carry that
    name, so at most [required_workers] when the name is scheduled once that
    day.  It may hold fewer. *)
Theorem capacity_per_task_slot (strptime_weekday : pystr -> option Z)
    (solve : LpProblem -> LpStatus * (LpVariable -> Z))
    (self : SamplingOptimizer) (date_str : pystr) (task_list : list pystr)
    (available_persons : list person) (result : dict pystr (list pystr)) :
  available_on strptime_weekday (persons self) date_str = Return available_persons ->
  solver_sound_on solve (build_problem available_persons (resolve_tasks self task_list)) ->
  (forall row, In row (tasks self) -> 0 <= required_of row) ->
  optimize_day strptime_weekday solve self date_str task_list = Return result ->
  (fst (solve (build_problem available_persons (resolve_tasks self task_list)))
     = LpStatusOptimal ->
   forall t_idx task,
     nth_error (resolve_tasks self task_list) t_idx = Some task ->
     workers_on (snd (solve (build_problem available_persons
                                           (resolve_tasks self task_list))))
                (List.length available_persons) t_idx
     <= required_of (info task))
  /\ (forall task_name workers,
        dict_get str_eq_dec result task_name = Some workers ->
        Z.of_nat (List.length workers)
        <= zsum (map (fun t => required_of (info t))
                     (filter (fun t => str_eqb (original_name t) task_name)
                             (resolve_tasks self task_list)))
        /\ (count_occ str_eq_dec task_list task_name = 1%nat ->
            Z.of_nat (List.length workers)
            <= required_of (match_task_to_database task_name (tasks self)))).
Proof.
  intros Havail Hsound Hreq Hday. split.
  - intros Hopt t_idx task Ht.
    exact (feasible_capacity _ _ _ (Hsound Hopt) t_idx task Ht).
  - intros task_name workers Hget.
    unfold optimize_day in Hday. rewrite Havail in Hday. simpl in Hday.
    injection Hday as <-.
    assert (Hsum : Z.of_nat (List.length workers)
                   <= zsum (map (fun t => required_of (info t))
                                (filter (fun t => str_eqb (original_name t) task_name)
                                        (resolve_tasks self task_list)))).
    { destruct (assign_day_get _ _ _ _ _ Hsound Hget) as [-> | [_ [Hf ->]]].
      - apply zsum_map_nonneg. intros t Ht. apply filter_In in Ht as [Ht _].
        apply resolve_tasks_In in Ht as [-> _].
        destruct (match_task_to_database_In (original_name t) (tasks self))
          as [Hin | ->]; [now apply Hreq | discriminate].
      - now apply assigned_under_length. }
    split; [exact Hsum|]. intros Honce.
    rewrite filter_resolve_tasks, (filter_name_once _ _ Honce) in Hsum.
    simpl in Hsum. lia.
Qed.

Lemma capacity_per_task_slot_witness :
  Z.of_nat (List.length [of_ascii "W3"])
  <= required_of (match_task_to_database (of_ascii "T1") (tasks sample_optimizer)).
Proof.
  refine (proj2 (proj2 (capacity_per_task_slot iso_weekday exhaustive_solve
                          sample_optimizer (of_ascii "2025-04-02")
                          [of_ascii "T1"; of_ascii "lab"] [W1; W3]
                          [(of_ascii "T1", [of_ascii "W3"]);
                           (of_ascii "lab", [of_ascii "W1"])] _ _ _ _)
                       (of_ascii "T1") [of_ascii "W3"] _) _).
  - reflexivity.
  - intros _. vm_compute. reflexivity.
  - intros row [<- | [<- | []]]; discriminate.
  - vm_compute. reflexivity.
  - reflexivity.
  - reflexivity.
Defined.

(** C3 as stated fails: "T1" requires one worker, is scheduled twice on the
    day, and the list returned under "T1" holds two workers.  The solution
    is the solver's [Optimal] answer, it satisfies the model, and no other
    0/1 assignment that satisfies the model reaches its objective value. *)
Lemma capacity_exceeded_by_repeated_name :
  optimize_day iso_weekday exhaustive_solve twice_optimizer
    (of_ascii "2025-04-02") twice_task_list
  = Return [(of_ascii "T1", [of_ascii "W1"; of_ascii "W1"])]
  /\ required_workers (match_task_to_database (of_ascii "T1") (tasks twice_optimizer))
     = Some 1
  /\ fst (exhaustive_solve
            (build_problem [W1] (resolve_tasks twice_optimizer twice_task_list)))
     = LpStatusOptimal
  /\ feasible (build_problem [W1] (resolve_tasks twice_optimizer twice_task_list))
       (snd (exhaustive_solve
               (build_problem [W1] (resolve_tasks twice_optimizer twice_task_list))))
     = true
  /\ forallb
       (fun a =>
          implb (feasible (build_problem [W1]
                             (resolve_tasks twice_optimizer twice_task_list))
                          (value_of a)
                 && (132 <=? objective_value
                               (build_problem [W1]
                                  (resolve_tasks twice_optimizer twice_task_list))
                               (value_of a)))
                (gt_half (value_of a (X 0 0)) && gt_half (value_of a (X 0 1))))
       (all_assignments
          (binaries (build_problem [W1]
                       (resolve_tasks twice_optimizer twice_task_list))))
     = true.
Proof.
  repeat split; vm_compute; reflexivity.
Qed.

(* ================================================================= *)
(** ** One area per worker *)

Lemma nth_error_name_unique (available_persons : list person) (i j : nat)
    (p q : person) :
  NoDup (map name available_persons) ->
  nth_error available_persons i = Some p ->
  nth_error available_persons j = Some q ->
  name p = name q -> i = j.
Proof.
  intros Hnd Hi Hj E.
  apply (proj1 (NoDup_nth_error (map name available_persons)) Hnd).
  - rewrite length_map. apply nth_error_Some. congruence.
  - rewrite !nth_error_map, Hi, Hj. simpl. now rewrite E.
Qed.

(** C4: with a solver whose [Optimal] answers satisfy the model, the tasks a
    worker is given on one day all lie in one area; read on the returned
    mapping, where workers appear by name and names are unique, the task
    names under which one worker appears all resolve to tasks of one area. *)
Theorem one_area_per_worker (strptime_weekday : pystr -> option Z)
    (solve : LpProblem -> LpStatus * (LpVariable -> Z))
    (self : SamplingOptimizer) (date_str : pystr) (task_list : list pystr)
    (available_persons : list person) (result : dict pystr (list pystr)) :
  available_on strptime_weekday (persons self) date_str = Return available_persons ->
  solver_sound_on solve (build_problem available_persons (resolve_tasks self task_list)) ->
  optimize_day strptime_weekday solve self date_str task_list = Return result ->
  (fst (solve (build_problem available_persons (resolve_tasks self task_list)))
     = LpStatusOptimal ->
   forall p_idx t1 t2 task1 task2,
     (p_idx < List.length available_persons)%nat ->
     nth_error (resolve_tasks self task_list) t1 = Some task1 ->
     nth_error (resolve_tasks self task_list) t2 = Some task2 ->
     gt_half (snd (solve (build_problem available_persons
                                        (resolve_tasks self task_list)))
                  (X p_idx t1)) = true ->
     gt_half (snd (solve (build_problem available_persons
                                        (resolve_tasks self task_list)))
                  (X p_idx t2)) = true ->
     area_of (info task1) = area_of (info task2))
  /\ (NoDup (map name available_persons) ->
      forall worker name1 name2 workers1 workers2,
        dict_get str_eq_dec result name1 = Some workers1 ->
        In worker workers1 ->
        dict_get str_eq_dec result name2 = Some workers2 ->
        In worker workers2 ->
        area_of (match_task_to_database name1 (tasks self))
        = area_of (match_task_to_database name2 (tasks self))).
Proof.
  intros Havail Hsound Hday. split.
  - intros Hopt p_idx t1 t2 task1 task2.
    exact (feasible_one_area _ _ _ (Hsound Hopt) p_idx t1 t2 task1 task2).
  - intros Hnames worker name1 name2 workers1 workers2 Hget1 Hin1 Hget2 Hin2.
    unfold optimize_day in Hday. rewrite Havail in Hday. simpl in Hday.
    injection Hday as <-.
    destruct (assign_day_get _ _ _ _ _ Hsound Hget1) as [-> | [_ [Hf ->]]];
      [contradiction|].
    destruct (assign_day_get _ _ _ _ _ Hsound Hget2) as [-> | [_ [_ ->]]];
      [contradiction|].
    apply In_assigned_under in Hin1
      as [p_idx [p [t1 [task1 [Hp [Ht1 [Hx1 [E1 Ep]]]]]]]].
    apply In_assigned_under in Hin2
      as [q_idx [q [t2 [task2 [Hq [Ht2 [Hx2 [E2 Eq]]]]]]]].
    assert (q_idx = p_idx)
      by (apply (nth_error_name_unique available_persons q_idx p_idx q p);
          auto; congruence).
    subst q_idx.
    assert (Hlt : (p_idx < List.length available_persons)%nat)
      by (apply nth_error_Some; congruence).
    pose proof (feasible_one_area _ _ _ Hf p_idx t1 t2 task1 task2
                  Hlt Ht1 Ht2 Hx1 Hx2) as Harea.
    apply nth_error_In in Ht1, Ht2.
    apply resolve_tasks_In in Ht1 as [I1 _], Ht2 as [I2 _].
    rewrite I1, I2, E1, E2 in Harea. exact Harea.
Qed.

Lemma one_area_per_worker_witness :
  area_of (match_task_to_database (of_ascii "T1") (tasks twice_optimizer))
  = area_of (match_task_to_database (of_ascii "T1 ") (tasks twice_optimizer)).
Proof.
  refine (proj2 (one_area_per_worker iso_weekday exhaustive_solve
                   twice_optimizer (of_ascii "2025-04-02")
                   [of_ascii "T1"; of_ascii "T1 "] [W1]
                   [(of_ascii "T1", [of_ascii "W1"]);
                    (of_ascii "T1 ", [of_ascii "W1"])] _ _ _)
                _ (of_ascii "W1") (of_ascii "T1") (of_ascii "T1 ")
                [of_ascii "W1"] [of_ascii "W1"] _ _ _ _).
  - reflexivity.
  - intros _. vm_compute. reflexivity.
  - vm_compute. reflexivity.
  - repeat constructor. simpl. tauto.
  - reflexivity.
  - now left.
  - reflexivity.
  - now left.
Defined.

(* ================================================================= *)
(** ** The reference solver and the reference calendar *)

(** 2025-04-01 was a Tuesday, 2025-04-02 a Wednesday, 2024-02-29 a Thursday. *)
Example iso_weekday_tuesday : iso_weekday (of_ascii "2025-04-01") = Some 1.
Proof. reflexivity. Qed.

Example iso_weekday_wednesday : iso_weekday (of_ascii "2025-04-02") = Some 2.
Proof. reflexivity. Qed.

Example iso_weekday_leap_day : iso_weekday (of_ascii "2024-02-29") = Some 3.
Proof. reflexivity. Qed.

Example iso_weekday_rejects : iso_weekday (of_ascii "2025-02-29") = None.
Proof. reflexivity. Qed.

Lemma best_of_spec (prob : LpProblem) (candidates : list (dict LpVariable Z))
    (a : dict LpVariable Z) :
  best_of prob candidates = Some a ->
  In a candidates
  /\ forall b, In b candidates ->
       objective_value prob (value_of b) <= objective_value prob (value_of a).
Proof.
  unfold best_of.
  set (step := fun (best : option (dict LpVariable Z)) (a : dict LpVariable Z) =>
                 match best with
                 | None => Some a
                 | Some b =>
                     if objective_value prob (value_of b)
                        <? objective_value prob (value_of a)
                     then Some a else Some b
                 end).
  assert (G : forall l acc r,
             fold_left step l acc = Some r ->
             (acc = Some r \/ In r l)
             /\ (forall b, acc = Some b ->
                    objective_value prob (value_of b)
                    <= objective_value prob (value_of r))
             /\ (forall b, In b l ->
                    objective_value prob (value_of b)
                    <= objective_value prob (value_of r))).
  { induction l as [|c l IH]; intros acc r H; simpl in H.
    - split; [now left|]. split; [|contradiction].
      intros b Hb. rewrite H in Hb. injection Hb as ->. lia.
    - destruct (IH _ _ H) as [H1 [H2 H3]].
      assert (Hc : objective_value prob (value_of c)
                   <= objective_value prob (value_of r)
                   /\ forall b, acc = Some b ->
                        objective_value prob (value_of b)
                        <= objective_value prob (value_of r)).
      { destruct acc as [b0|]; simpl in H1, H2.
        - destruct (Z.ltb_spec (objective_value prob (value_of b0))
                               (objective_value prob (value_of c))) as [Hlt | Hge].
          + pose proof (H2 c eq_refl). split; [lia|].
            intros b Hb. injection Hb as <-. lia.
          + pose proof (H2 b0 eq_refl). split; [lia|].
            intros b Hb. now injection Hb as <-.
        - split; [now apply H2 | discriminate]. }
      destruct Hc as [Hc1 Hc2].
      split; [|split; [exact Hc2|]].
      + destruct H1 as [H1 | H1]; [|right; now right].
        destruct acc as [b0|]; simpl in H1.
        * destruct (_ <? _); injection H1 as <-; [right; now left | now left].
        * injection H1 as <-. right. now left.
      + intros b [<- | Hb]; [exact Hc1 | now apply H3]. }
  intros H. destruct (G _ _ _ H) as [[H1 | H1] [_ H3]]; [discriminate|].
  split; [exact H1 | exact H3].
Qed.

(** The reference solver answers [Optimal] only with a solution of the
    model, and no 0/1 assignment of the model's variables that satisfies the
    model has a greater objective value. *)
Lemma exhaustive_solve_sound (prob : LpProblem) :
  solver_sound_on exhaustive_solve prob
  /\ (fst (exhaustive_solve prob) = LpStatusOptimal ->
      forall b, In b (all_assignments (binaries prob)) ->
        feasible prob (value_of b) = true ->
        objective_value prob (value_of b)
        <= objective_value prob (snd (exhaustive_solve prob))).
Proof.
  unfold solver_sound_on, exhaustive_solve.
  destruct (best_of prob _) as [a|] eqn:E; simpl.
  - apply best_of_spec in E as [Hin Hbest].
    apply filter_In in Hin as [_ Hf].
    split; [intros _; exact Hf|].
    intros _ b Hb Hfb. apply Hbest. apply filter_In. auto.
  - split; discriminate.
Qed.

(** A day with only [W1] and [T1]: [W1] is assigned to [T1]. *)
Example optimize_day_single :
  optimize_day iso_weekday exhaustive_solve {| persons := [W1]; tasks := [T1] |}
    (of_ascii "2025-04-02") [of_ascii "T1"]
  = Return [(of_ascii "T1", [of_ascii "W1"])].
Proof. vm_compute. reflexivity. Qed.

(** The sample schedule: on the Tuesday all three workers are available,
    on the Wednesday [W2] is not. *)
Example optimize_schedule_sample :
  optimize_schedule iso_weekday exhaustive_solve sample_optimizer sample_schedule
  = Return
      [(of_ascii "2025-04-01",
        [(of_ascii "T1", [of_ascii "W2"]);
         (of_ascii " river ", [of_ascii "W1"; of_ascii "W3"])]);
       (of_ascii "2025-04-02",
        [(of_ascii "T1", [of_ascii "W3"]);
         (of_ascii "lab", [of_ascii "W1"])])].
Proof. vm_compute. reflexivity. Qed.

(* ================================================================= *)
(** ** Grouping, in full *)

Section GroupFold.
Context {B V : Type}.
Variable kf : B -> pystr.
Variable vf : B -> V.

Lemma group_fold_get (l : list B) (acc : dict pystr (list V)) (k : pystr) :
  dict_get str_eq_dec (fold_left (group_step kf vf) l acc) k
  = match dict_get str_eq_dec acc k,
          map vf (filter (fun b => str_eqb (kf b) k) l) with
    | Some v, vs => Some (v ++ vs)
    | None, [] => None
    | None, vs => Some vs
    end.
Proof.
  revert acc; induction l as [|b l IH]; intros acc.
  - simpl. destruct (dict_get str_eq_dec acc k); [now rewrite app_nil_r | reflexivity].
  - cbn [fold_left filter]. rewrite IH. unfold group_step.
    rewrite group_step_get. unfold str_eqb.
    destruct (str_eq_dec k (kf b)) as [-> | Hne].
    + destruct (str_eq_dec (kf b) (kf b)); [|contradiction]. cbn [map].
      destruct (dict_get str_eq_dec acc (kf b)); simpl.
      * now rewrite <- app_assoc.
      * reflexivity.
    + destruct (str_eq_dec (kf b) k); [congruence|].
      reflexivity.
Qed.

Lemma group_fold_keys (l : list B) :
  dict_keys (fold_left (group_step kf vf) l []) = first_occurrences (map kf l).
Proof.
  unfold first_occurrences.
  induction l as [|b l IH] using rev_ind; [reflexivity|].
  rewrite fold_left_app, map_app, rev_app_distr. cbn [fold_left map rev app nodup].
  unfold group_step at 1. rewrite group_step_keys, IH.
  destruct (in_dec str_eq_dec (kf b) (rev (map kf l))) as [Hin | Hnin].
  - assert (E : dict_mem str_eq_dec (fold_left (group_step kf vf) l []) (kf b) = true).
    { apply dict_mem_true. rewrite IH. apply -> in_rev. now apply nodup_In. }
    now rewrite E.
  - assert (E : dict_mem str_eq_dec (fold_left (group_step kf vf) l []) (kf b) = false).
    { destruct (dict_mem _ _ _) eqn:E; [|reflexivity].
      apply dict_mem_true in E. rewrite IH in E. apply in_rev in E.
      apply nodup_In in E. contradiction. }
    rewrite E. reflexivity.
Qed.

End GroupFold.

Lemma get_schedule_by_date_fold (schedule_df : list schedule_row) :
  get_schedule_by_date schedule_df
  = fold_left (group_step date_str sched_task_name) schedule_df [].
Proof. reflexivity. Qed.

Lemma group_by_area_fold (tasks_info : list task_info) :
  group_by_area tasks_info
  = fold_left (group_step (fun it => area_of (info (snd it))) fst)
              (enumerate tasks_info) [].
Proof.
  unfold group_by_area. apply fold_left_ext_in. now intros [t_idx t] _ acc.
Qed.

Lemma group_fold_lookup {B V : Type} (kf : B -> pystr) (vf : B -> V)
    (l : list B) (k : pystr) :
  dict_get str_eq_dec (fold_left (group_step kf vf) l []) k
  = if in_dec str_eq_dec k (map kf l)
    then Some (map vf (filter (fun b => str_eqb (kf b) k) l))
    else None.
Proof.
  rewrite group_fold_get. cbn [dict_get].
  destruct (in_dec str_eq_dec k (map kf l)) as [Hin | Hnin].
  - apply in_map_iff in Hin as [b [E Hb]].
    assert (Hf : In b (filter (fun b => str_eqb (kf b) k) l))
      by (apply filter_In; split; [exact Hb | now apply str_eqb_eq]).
    destruct (filter _ l) as [|b0 l0]; [contradiction | reflexivity].
  - destruct (filter (fun b => str_eqb (kf b) k) l) as [|b0 l0] eqn:E; [reflexivity|].
    exfalso. apply Hnin.
    assert (Hf : In b0 (filter (fun b => str_eqb (kf b) k) l))
      by (rewrite E; now left).
    apply filter_In in Hf as [Hb0 Hk]. apply str_eqb_eq in Hk.
    rewrite <- Hk. now apply in_map.
Qed.

(** X1: [get_schedule_by_date] lists the dates in order of first
    appearance, and under each date exactly the task names of the rows of
    that date, in row order, repeated names included; a date that is not in
    the schedule is not a key. *)
Theorem get_schedule_by_date_spec (schedule_df : list schedule_row) :
  dict_keys (get_schedule_by_date schedule_df)
    = first_occurrences (map date_str schedule_df)
  /\ forall d,
       dict_get str_eq_dec (get_schedule_by_date schedule_df) d
       = if in_dec str_eq_dec d (map date_str schedule_df)
         then Some (names_on schedule_df d) else None.
Proof.
  rewrite get_schedule_by_date_fold. split.
  - apply group_fold_keys.
  - intros d. apply group_fold_lookup.
Qed.

Lemma indices_sorted {A : Type} (P : nat * A -> bool) (l : list A) (s : nat) :
  StronglySorted lt (map fst (filter P (combine (seq s (List.length l)) l)))
  /\ Forall (fun i => (s <= i)%nat)
            (map fst (filter P (combine (seq s (List.length l)) l))).
Proof.
  revert s; induction l as [|a l IH]; intros s; simpl.
  - split; constructor.
  - destruct (IH (S s)) as [H1 H2].
    assert (H3 : Forall (fun i => (s <= i)%nat)
                   (map fst (filter P (combine (seq (S s) (List.length l)) l))))
      by (eapply Forall_impl; [|exact H2]; simpl; intros; lia).
    destruct (P (s, a)); simpl.
    + split.
      * apply SSorted_cons; [exact H1|].
        eapply Forall_impl; [|exact H2]. simpl. intros; lia.
      * constructor; [lia | exact H3].
    + auto.
Qed.

(** X2: [group_by_area] lists the areas of the day's tasks in order of first
    appearance, and under each area exactly the indices of the tasks of that
    area, in increasing order; a task without an area counts under the
    area [area_unknown]. *)
Theorem group_by_area_indices (tasks_info : list task_info) :
  dict_keys (group_by_area tasks_info)
    = first_occurrences (map (fun t => area_of (info t)) tasks_info)
  /\ (forall a,
        dict_get str_eq_dec (group_by_area tasks_info) a
        = if in_dec str_eq_dec a (map (fun t => area_of (info t)) tasks_info)
          then Some (indices_in_area tasks_info a) else None)
  /\ (forall a,
        StronglySorted lt (indices_in_area tasks_info a)
        /\ forall i, In i (indices_in_area tasks_info a)
                     <-> exists t, nth_error tasks_info i = Some t
                                   /\ get (area (info t)) area_unknown = a).
Proof.
  rewrite group_by_area_fold.
  assert (E : map (fun it : nat * task_info => area_of (info (snd it)))
                  (enumerate tasks_info)
              = map (fun t => area_of (info t)) tasks_info).
  { rewrite <- (map_snd_enumerate tasks_info) at 2. now rewrite map_map. }
  split; [|split].
  - now rewrite group_fold_keys, E.
  - intros a. rewrite group_fold_lookup, E. reflexivity.
  - intros a. split; [apply indices_sorted|].
    intros i. unfold indices_in_area. rewrite in_map_iff. split.
    + intros [[j t] [<- H]]. apply filter_In in H as [H1 H2].
      apply in_enumerate in H1. apply str_eqb_eq in H2. now exists t.
    + intros [t [H1 H2]]. exists (i, t). split; [reflexivity|].
      apply filter_In. split; [now apply in_enumerate | now apply str_eqb_eq].
Qed.

(* ================================================================= *)
(** ** More on the result of one day *)

Lemma empty_result_keys_order (tasks_info : list task_info) :
  dict_keys (empty_result tasks_info)
  = first_occurrences (map original_name tasks_info).
Proof.
  unfold empty_result, first_occurrences.
  induction tasks_info as [|t l IH] using rev_ind; [reflexivity|].
  rewrite fold_left_app, map_app, rev_app_distr. cbn [fold_left map rev app nodup].
  rewrite dict_keys_set, IH.
  match goal with
  | |- context [dict_mem str_eq_dec ?d ?k] =>
      pose proof (dict_mem_true str_eq_dec d k) as Hm;
      destruct (dict_mem str_eq_dec d k)
  end; rewrite IH in Hm;
    destruct (in_dec str_eq_dec (original_name t) (rev (map original_name l)))
      as [Hin | Hnin]; try reflexivity; exfalso.
  - assert (true = true) as Ht by reflexivity. apply Hm in Ht.
    apply in_rev in Ht. apply nodup_In in Ht. contradiction.
  - assert (false = true) as Hf; [|discriminate].
    apply Hm. apply -> in_rev. now apply nodup_In.
Qed.

(** What [assign_day] leaves under a key, with no assumption on the solver. *)
Lemma assign_day_get_any (solve : LpProblem -> LpStatus * (LpVariable -> Z))
    (available_persons : list person) (tasks_info : list task_info)
    (k : pystr) (workers : list pystr) :
  dict_get str_eq_dec (assign_day solve available_persons tasks_info) k
    = Some workers ->
  In k (map original_name tasks_info)
  /\ (workers = []
      \/ (fst (solve (build_problem available_persons tasks_info)) = LpStatusOptimal
          /\ workers = assigned_under
                         (snd (solve (build_problem available_persons tasks_info)))
                         available_persons tasks_info k)).
Proof.
  unfold assign_day.
  assert (Hempty : dict_get str_eq_dec (empty_result tasks_info) k = Some workers ->
                   In k (map original_name tasks_info) /\ workers = []).
  { rewrite empty_result_get. destruct (in_dec _ _ _); [|discriminate].
    intros H; injection H as <-. auto. }
  destruct available_persons as [|p l];
    [intros H; destruct (Hempty H); auto|].
  destruct (solve (build_problem (p :: l) tasks_info)) as [status value].
  simpl.
  destruct status; simpl; try (intros H; destruct (Hempty H); now auto).
  rewrite extract_result_get, empty_result_get.
  destruct (in_dec _ _ _); [|discriminate]. simpl.
  intros H. injection H as <-. auto.
Qed.

(** X3: the keys of the mapping [optimize_day] returns are the day's
    distinct task names in order of first appearance, whatever the solver
    did; a name scheduled twice is one key. *)
Theorem optimize_day_keys (strptime_weekday : pystr -> option Z)
    (solve : LpProblem -> LpStatus * (LpVariable -> Z))
    (self : SamplingOptimizer) (date_str : pystr) (task_list : list pystr)
    (result : dict pystr (list pystr)) :
  optimize_day strptime_weekday solve self date_str task_list = Return result ->
  dict_keys result = first_occurrences task_list.
Proof.
  unfold optimize_day.
  destruct (available_on strptime_weekday (persons self) date_str) as [l|];
    [|discriminate].
  simpl. intros H. injection H as <-.
  now rewrite assign_day_keys, empty_result_keys_order, original_name_resolve_tasks.
Qed.

Lemma optimize_day_keys_witness :
  dict_keys [(of_ascii "T1", [of_ascii "W1"; of_ascii "W1"])]
  = first_occurrences twice_task_list.
Proof.
  apply (optimize_day_keys iso_weekday exhaustive_solve twice_optimizer
           (of_ascii "2025-04-02") twice_task_list).
  vm_compute. reflexivity.
Defined.

(** X4: every name [optimize_day] lists under a task is the name of a worker
    of the registry for whom the availability check returned true on that
    date, and the task is one of the day's tasks; this holds for any
    solver, sound or not. *)
Theorem optimize_day_assigns_available (strptime_weekday : pystr -> option Z)
    (solve : LpProblem -> LpStatus * (LpVariable -> Z))
    (self : SamplingOptimizer) (date_str : pystr) (task_list : list pystr)
    (result : dict pystr (list pystr)) (k : pystr) (workers : list pystr)
    (w : pystr) :
  optimize_day strptime_weekday solve self date_str task_list = Return result ->
  dict_get str_eq_dec result k = Some workers ->
  In w workers ->
  In k task_list
  /\ exists p,
       In p (persons self) /\ name p = w
       /\ is_person_available strptime_weekday p date_str = Return true.
Proof.
  unfold optimize_day.
  destruct (available_on strptime_weekday (persons self) date_str) as [l|] eqn:El;
    [|discriminate].
  simpl. intros H Hget Hin. injection H as <-.
  apply assign_day_get_any in Hget as [Hk Hw].
  rewrite original_name_resolve_tasks in Hk. split; [exact Hk|].
  destruct Hw as [-> | [_ ->]]; [contradiction|].
  apply In_assigned_under in Hin as [p_idx [p [_ [_ [Hp [_ [_ [_ Hname]]]]]]]].
  apply nth_error_In in Hp.
  apply (available_on_In _ _ _ _ El) in Hp as [Hp1 Hp2].
  now exists p.
Qed.

Lemma optimize_day_assigns_available_witness :
  In (of_ascii "lab") [of_ascii "T1"; of_ascii "lab"]
  /\ exists p,
       In p (persons sample_optimizer) /\ name p = of_ascii "W1"
       /\ is_person_available iso_weekday p (of_ascii "2025-04-02") = Return true.
Proof.
  apply (optimize_day_assigns_available iso_weekday exhaustive_solve
           sample_optimizer (of_ascii "2025-04-02")
           [of_ascii "T1"; of_ascii "lab"]
           [(of_ascii "T1", [of_ascii "W3"]); (of_ascii "lab", [of_ascii "W1"])]
           (of_ascii "lab") [of_ascii "W1"] (of_ascii "W1")).
  - vm_compute. reflexivity.
  - reflexivity.
  - now left.
Defined.

(* ================================================================= *)
(** ** More on the whole schedule *)

Section ScheduleMore.
Variable strptime_weekday : pystr -> option Z.
Variable solve : LpProblem -> LpStatus * (LpVariable -> Z).





Lemma optimize_dates_keys_order (self : SamplingOptimizer)
    (items : list (pystr * list pystr)) :
  forall acc r,
    optimize_dates strptime_weekday solve self items acc = Return r ->
    NoDup (dict_keys acc ++ map fst items) ->
    dict_keys r = dict_keys acc ++ map fst items.
Proof.
  induction items as [|[date_str task_list] items IH]; intros acc r H Hnd;
    simpl in *.
  - injection H as <-. now rewrite app_nil_r.
  - destruct (optimize_day strptime_weekday solve self date_str task_list)
      as [day_result|]; [|discriminate].
    simpl in H.
    assert (Hmem : dict_mem str_eq_dec acc date_str = false).
    { destruct (dict_mem str_eq_dec acc date_str) eqn:E; [|reflexivity].
      apply dict_mem_true in E. apply NoDup_remove_2 in Hnd.
      exfalso. apply Hnd. apply in_or_app. now left. }
    assert (Hkeys : dict_keys (dict_set str_eq_dec acc date_str day_result)
                    = dict_keys acc ++ [date_str])
      by (now rewrite dict_keys_set, Hmem).
    rewrite (IH _ _ H); rewrite Hkeys, <- app_assoc; [reflexivity | exact Hnd].
Qed.

End ScheduleMore.

Lemma first_occurrences_NoDup (l : list pystr) : NoDup (first_occurrences l).
Proof.
  unfold first_occurrences. apply NoDup_rev. apply NoDup_nodup.
Qed.

Lemma first_occurrences_In (l : list pystr) (k : pystr) :
  In k (first_occurrences l) <-> In k l.
Proof.
  unfold first_occurrences. rewrite <- in_rev, nodup_In, <- in_rev. tauto.
Qed.

Lemma get_schedule_by_date_lookup (schedule_df : list schedule_row) (d : pystr) :
  dict_get str_eq_dec (get_schedule_by_date schedule_df) d
  = if in_dec str_eq_dec d (map date_str schedule_df)
    then Some (names_on schedule_df d) else None.
Proof. rewrite get_schedule_by_date_fold. apply group_fold_lookup. Qed.

Lemma get_schedule_by_date_order (schedule_df : list schedule_row) :
  dict_keys (get_schedule_by_date schedule_df)
  = first_occurrences (map date_str schedule_df).
Proof. rewrite get_schedule_by_date_fold. apply group_fold_keys. Qed.

Lemma optimize_schedule_lookup (strptime_weekday : pystr -> option Z)
    (solve : LpProblem -> LpStatus * (LpVariable -> Z))
    (self : SamplingOptimizer) (schedule_df : list schedule_row)
    (all_results : dict pystr (dict pystr (list pystr))) (d : pystr) :
  optimize_schedule strptime_weekday solve self schedule_df = Return all_results ->
  In d (map date_str schedule_df) ->
  exists day_result,
    optimize_day strptime_weekday solve self d (names_on schedule_df d)
      = Return day_result
    /\ dict_get str_eq_dec all_results d = Some day_result.
Proof.
  unfold optimize_schedule. intros H Hd.
  assert (Hnd : NoDup (map fst (get_schedule_by_date schedule_df))).
  { change (NoDup (dict_keys (get_schedule_by_date schedule_df))).
    rewrite get_schedule_by_date_order. apply first_occurrences_NoDup. }
  apply (optimize_dates_get strptime_weekday solve self _ Hnd _ _ H).
  apply dict_get_In with (K_eq_dec := str_eq_dec).
  rewrite get_schedule_by_date_lookup.
  destruct (in_dec str_eq_dec d (map date_str schedule_df)); [reflexivity | contradiction].
Qed.

(** X5: when [optimize_schedule] returns, its result lists the dates of the
    schedule in order of first appearance, and the entry of each date is
    what [optimize_day] returns for that date and the task names of that
    date in row order: the days are optimized independently. *)
Theorem optimize_schedule_entries (strptime_weekday : pystr -> option Z)
    (solve : LpProblem -> LpStatus * (LpVariable -> Z))
    (self : SamplingOptimizer) (schedule_df : list schedule_row)
    (all_results : dict pystr (dict pystr (list pystr))) :
  optimize_schedule strptime_weekday solve self schedule_df = Return all_results ->
  dict_keys all_results = first_occurrences (map date_str schedule_df)
  /\ forall d, In d (map date_str schedule_df) ->
       exists day_result,
         optimize_day strptime_weekday solve self d (names_on schedule_df d)
           = Return day_result
         /\ dict_get str_eq_dec all_results d = Some day_result.
Proof.
  intros H. split.
  - unfold optimize_schedule in H.
    rewrite (optimize_dates_keys_order _ _ _ _ _ _ H).
    + apply get_schedule_by_date_order.
    + change (NoDup (dict_keys (get_schedule_by_date schedule_df))).
      rewrite get_schedule_by_date_order. apply first_occurrences_NoDup.
  - intros d Hd. exact (optimize_schedule_lookup _ _ _ _ _ d H Hd).
Qed.

Lemma optimize_schedule_entries_witness :
  exists day_result,
    optimize_day iso_weekday exhaustive_solve sample_optimizer
      (of_ascii "2025-04-02") (names_on sample_schedule (of_ascii "2025-04-02"))
    = Return day_result
    /\ dict_get str_eq_dec
         [(of_ascii "2025-04-01",
           [(of_ascii "T1", [of_ascii "W2"]);
            (of_ascii " river ", [of_ascii "W1"; of_ascii "W3"])]);
          (of_ascii "2025-04-02",
           [(of_ascii "T1", [of_ascii "W3"]);
            (of_ascii "lab", [of_ascii "W1"])])]
         (of_ascii "2025-04-02") = Some day_result.
Proof.
  refine (proj2 (optimize_schedule_entries iso_weekday exhaustive_solve
                   sample_optimizer sample_schedule _ _) (of_ascii "2025-04-02") _).
  - vm_compute. reflexivity.
  - right. now left.
Defined.


(* ================================================================= *)
(** ** The order of the workers under a task *)








(* ================================================================= *)
(** ** Feasibility of the day's model *)

Lemma zsum_map_const_zero {A : Type} (l : list A) :
  zsum (map (fun _ : A => 0) l) = 0.
Proof. now apply zsum_map_zero. Qed.

(** X8: the day's model has a solution exactly when no resolved task has a
    negative [required_workers]; the assignment that sets every variable to
    zero is then a solution. *)
Theorem build_problem_feasible (available_persons : list person)
    (tasks_info : list task_info) :
  (feasible (build_problem available_persons tasks_info) (fun _ => 0) = true
   <-> forall t, In t tasks_info -> 0 <= get (required_workers (info t)) 1)
  /\ ((exists value,
          feasible (build_problem available_persons tasks_info) value = true)
      -> feasible (build_problem available_persons tasks_info) (fun _ => 0) = true).
Proof.
  assert (Hzero : (forall t, In t tasks_info -> 0 <= get (required_workers (info t)) 1)
                  -> feasible (build_problem available_persons tasks_info)
                              (fun _ => 0) = true).
  { intros Hreq. unfold feasible. apply andb_true_iff. split.
    - apply forallb_forall. intros v _. reflexivity.
    - apply forallb_forall. intros c Hc. cbn [build_problem constraints] in Hc.
      apply in_app_or in Hc as [Hc | Hc]; [|apply in_app_or in Hc as [Hc | Hc]].
      + apply in_map_iff in Hc as [p_idx [<- _]]. simpl.
        now rewrite map_map, zsum_map_const_zero.
      + apply in_flat_map in Hc as [p_idx [_ Hc]].
        apply in_flat_map in Hc as [[a idxs] [_ Hc]].
        apply in_map_iff in Hc as [t_idx [<- _]]. reflexivity.
      + apply in_map_iff in Hc as [[t_idx t] [<- Ht]]. simpl.
        rewrite map_map, zsum_map_const_zero. apply Z.leb_le.
        apply in_enumerate in Ht. apply nth_error_In in Ht. now apply Hreq. }
  assert (Hany : forall value,
             feasible (build_problem available_persons tasks_info) value = true ->
             forall t, In t tasks_info -> 0 <= get (required_workers (info t)) 1).
  { intros value Hf t Ht. apply In_nth_error in Ht as [t_idx Ht].
    pose proof (feasible_capacity _ _ _ Hf t_idx t Ht) as Hcap.
    unfold workers_on, required_of in Hcap. lia. }
  split; [split; [apply Hany | exact Hzero]|].
  intros [value Hf]. apply Hzero. exact (Hany value Hf).
Qed.

(* ================================================================= *)
(** ** More on the score and on the resolver *)

(** X9: the score never decreases when a worker's skill, strength, ship or
    navigation rating increases and the others stay. *)
Theorem calculate_match_score_monotone (p1 p2 : person) (t : task_dict) :
  skill p1 <= skill p2 ->
  strength p1 <= strength p2 ->
  ship p1 <= ship p2 ->
  navigation p1 <= navigation p2 ->
  calculate_match_score p1 t <= calculate_match_score p2 t.
Proof.
  intros H1 H2 H3 H4. unfold calculate_match_score.
  rewrite !Z.geb_leb, !Z.gtb_ltb.
  destruct (Z.leb_spec 0 (skill p1 - get (required_skill t) 3)),
    (Z.leb_spec 0 (skill p2 - get (required_skill t) 3)),
    (Z.leb_spec 0 (strength p1 - get (required_strength t) 3)),
    (Z.leb_spec 0 (strength p2 - get (required_strength t) 3)),
    (Z.leb_spec 3 (get (ship_work t) 1)),
    (Z.leb_spec 3 (get (navigation_required t) 1));
    try lia;
    try destruct (Z.leb_spec 0 (ship p1 - get (ship_work t) 1));
    try destruct (Z.leb_spec 0 (ship p2 - get (ship_work t) 1));
    try destruct (Z.ltb_spec 0 (navigation p1));
    try destruct (Z.ltb_spec 0 (navigation p2));
    lia.
Qed.

Lemma calculate_match_score_monotone_witness :
  calculate_match_score W2 T2 <= calculate_match_score W1 T2.
Proof.
  apply (calculate_match_score_monotone W2 W1 T2); vm_compute; discriminate.
Defined.

Lemma str_in_nil (s : pystr) : str_in [] s = true.
Proof. destruct s; reflexivity. Qed.

(** X10: a display name that is empty once trimmed, when no registry row is
    named by the empty string, resolves to the first row of the registry,
    whatever that row is; only with an empty registry does it resolve to the
    default description. *)
Theorem match_task_to_database_blank (display_name : pystr)
    (database_df : list task_dict) :
  strip display_name = [] ->
  (forall r, In r database_df -> task_name r <> []) ->
  match_task_to_database display_name database_df
  = match database_df with
    | [] => default_task []
    | row :: _ => row
    end.
Proof.
  intros Hblank Hnames. unfold match_task_to_database. rewrite Hblank.
  rewrite find_none_iff.
  - destruct database_df as [|row rest]; [reflexivity|].
    cbn [find]. unfold partial_match. now rewrite str_in_nil, orb_true_r.
  - intros r Hr. destruct (str_eqb (task_name r) []) eqn:E; [|reflexivity].
    apply str_eqb_eq in E. exfalso. exact (Hnames r Hr E).
Qed.

Lemma match_task_to_database_blank_witness :
  match_task_to_database (of_ascii "   ") [T1; T2] = T1.
Proof.
  apply (match_task_to_database_blank (of_ascii "   ") [T1; T2]).
  - reflexivity.
  - intros r [<- | [<- | []]]; discriminate.
Defined.

(* ================================================================= *)
(** ** Durations *)

Lemma str_in_char (c : N) (s : pystr) :
  str_in [c] s = existsb (N.eqb c) s.
Proof.
  induction s as [|a s IH]; [reflexivity|].
  cbn [str_in startswith existsb]. rewrite IH.
  destruct s; now rewrite andb_true_r.
Qed.

Lemma replace_char_none (old new : N) (s : pystr) :
  existsb (N.eqb old) s = false -> replace_char old new s = s.
Proof.
  induction s as [|a s IH]; [reflexivity|]. simpl.
  intros H. apply orb_false_iff in H as [Ha Hs].
  rewrite N.eqb_sym in Ha. now rewrite Ha, IH.
Qed.

Lemma replace_char_absent (old new : N) (s : pystr) :
  old <> new -> existsb (N.eqb old) (replace_char old new s) = false.
Proof.
  intros Hne. induction s as [|a s IH]; [reflexivity|]. simpl.
  rewrite IH, orb_false_r.
  destruct (N.eqb_spec a old) as [-> | Ha]; apply N.eqb_neq; congruence.
Qed.

Lemma replace_char_present (old new : N) (s : pystr) :
  existsb (N.eqb new) (replace_char old new s)
  = existsb (N.eqb old) s || existsb (N.eqb new) s.
Proof.
  induction s as [|a s IH]; [reflexivity|]. simpl. rewrite IH.
  destruct (N.eqb_spec a old) as [-> | Ha].
  - now rewrite !N.eqb_refl.
  - replace (old =? a)%N with false by (symmetry; apply N.eqb_neq; congruence).
    destruct (new =? a)%N, (existsb (N.eqb old) s), (existsb (N.eqb new) s);
      reflexivity.
Qed.

Lemma replace_char_app (old new : N) (a b : pystr) :
  replace_char old new (a ++ b) = replace_char old new a ++ replace_char old new b.
Proof. apply map_app. Qed.

Lemma split_on_nonempty (sep : N) (s : pystr) : split_on sep s <> [].
Proof.
  destruct s as [|c s]; simpl; [discriminate|].
  destruct (c =? sep)%N; [discriminate|].
  destruct (split_on sep s); discriminate.
Qed.

Lemma split_on_no_sep (sep : N) (s : pystr) :
  existsb (N.eqb sep) s = false -> split_on sep s = [s].
Proof.
  induction s as [|c s IH]; [reflexivity|]. simpl.
  intros H. apply orb_false_iff in H as [Hc Hs].
  rewrite N.eqb_sym in Hc. now rewrite Hc, IH.
Qed.

Lemma split_on_app (sep : N) (a rest : pystr) :
  existsb (N.eqb sep) a = false ->
  split_on sep (a ++ sep :: rest) = a :: split_on sep rest.
Proof.
  induction a as [|c a IH]; simpl.
  - now rewrite N.eqb_refl.
  - intros H. apply orb_false_iff in H as [Hc Ha].
    rewrite N.eqb_sym in Hc. now rewrite Hc, IH.
Qed.

Section DurationFacts.
Variable F : Type.
Variable float_of_str : pystr -> option F.
Variable fadd : F -> F -> F.
Variable fdiv2 : F -> F.
Variable one : F.

Local Abbreviation parse := (parse_duration F float_of_str fadd fdiv2 one).

(** A string without either tilde. *)
Local Abbreviation plain s :=
  (existsb (N.eqb fullwidth_tilde) s = false /\ existsb (N.eqb tilde) s = false).

(** The two parts a range is read from: the text before the first tilde
    and the text between the first and the second. *)
Lemma parse_duration_parts (a b : pystr) (sep1 : N) :
  plain a -> plain b ->
  sep1 = tilde \/ sep1 = fullwidth_tilde ->
  let mid := match float_of_str a, float_of_str b with
             | Some x, Some y => fdiv2 (fadd x y)
             | _, _ => one
             end in
  parse (CellStr (a ++ sep1 :: b)) = mid
  /\ forall sep2 rest,
       sep2 = tilde \/ sep2 = fullwidth_tilde ->
       parse (CellStr (a ++ sep1 :: b ++ sep2 :: rest)) = mid.
Proof.
  intros [Ha1 Ha2] [Hb1 Hb2] Hsep1 mid.
  assert (Hrep : forall sep, sep = tilde \/ sep = fullwidth_tilde ->
                   (if (sep =? fullwidth_tilde)%N then tilde else sep) = tilde)
    by (intros sep [-> | ->]; reflexivity).
  assert (Hcond : forall tl,
             str_in [fullwidth_tilde] (a ++ sep1 :: tl)
             || str_in [tilde] (a ++ sep1 :: tl) = true).
  { intros tl. rewrite !str_in_char, !existsb_app. cbn [existsb].
    destruct Hsep1 as [-> | ->]; rewrite N.eqb_refl;
      rewrite ?orb_true_r; reflexivity. }
  split.
  - unfold parse_duration. rewrite Hcond.
    rewrite replace_char_app. cbn [replace_char map]. rewrite (Hrep sep1 Hsep1).
    fold (replace_char fullwidth_tilde tilde a).
    fold (replace_char fullwidth_tilde tilde b).
    rewrite !replace_char_none by assumption.
    rewrite split_on_app by assumption.
    rewrite split_on_no_sep by assumption. reflexivity.
  - intros sep2 rest Hsep2. unfold parse_duration. rewrite Hcond.
    rewrite replace_char_app. cbn [replace_char map]. rewrite (Hrep sep1 Hsep1).
    fold (replace_char fullwidth_tilde tilde (b ++ sep2 :: rest)).
    fold (replace_char fullwidth_tilde tilde a).
    rewrite replace_char_app. cbn [replace_char map]. rewrite (Hrep sep2 Hsep2).
    fold (replace_char fullwidth_tilde tilde b).
    fold (replace_char fullwidth_tilde tilde rest).
    rewrite !replace_char_none by assumption.
    rewrite !split_on_app by assumption. reflexivity.
Qed.

End DurationFacts.

(** X11: [parse_duration] treats the fullwidth tilde as the ASCII tilde:
    replacing every fullwidth tilde of a duration string by an ASCII tilde
    does not change the result. *)
Theorem parse_duration_tilde_forms (F : Type) (float_of_str : pystr -> option F)
    (fadd : F -> F -> F) (fdiv2 : F -> F) (one : F) (s : pystr) :
  parse_duration F float_of_str fadd fdiv2 one (CellStr s)
  = parse_duration F float_of_str fadd fdiv2 one
      (CellStr (replace_char fullwidth_tilde tilde s)).
Proof.
  assert (Hne : fullwidth_tilde <> tilde) by discriminate.
  unfold parse_duration. rewrite !str_in_char.
  rewrite (replace_char_absent fullwidth_tilde tilde s Hne).
  rewrite replace_char_present. cbn [orb].
  destruct (existsb (N.eqb fullwidth_tilde) s || existsb (N.eqb tilde) s) eqn:E.
  - rewrite (replace_char_none fullwidth_tilde tilde
               (replace_char fullwidth_tilde tilde s))
      by (now apply replace_char_absent).
    reflexivity.
  - apply orb_false_iff in E as [E _]. now rewrite replace_char_none.
Qed.


(** X12: for a duration string with a tilde of either kind, [parse_duration]
    reads the text before the first tilde and the text between the first
    and the second tilde (or the end); when [float] accepts both it returns
    their sum halved, otherwise 1.0; whatever follows a second tilde is
    ignored. *)
Theorem parse_duration_midpoint (F : Type) (float_of_str : pystr -> option F)
    (fadd : F -> F -> F) (fdiv2 : F -> F) (one : F)
    (a b : pystr) (sep1 : N) :
  existsb (N.eqb fullwidth_tilde) a = false /\ existsb (N.eqb tilde) a = false ->
  existsb (N.eqb fullwidth_tilde) b = false /\ existsb (N.eqb tilde) b = false ->
  sep1 = tilde \/ sep1 = fullwidth_tilde ->
  parse_duration F float_of_str fadd fdiv2 one (CellStr (a ++ sep1 :: b))
    = match float_of_str a, float_of_str b with
      | Some x, Some y => fdiv2 (fadd x y)
      | _, _ => one
      end
  /\ forall sep2 rest,
       sep2 = tilde \/ sep2 = fullwidth_tilde ->
       parse_duration F float_of_str fadd fdiv2 one
         (CellStr (a ++ sep1 :: b ++ sep2 :: rest))
       = parse_duration F float_of_str fadd fdiv2 one (CellStr (a ++ sep1 :: b)).
Proof.
  intros Ha Hb Hsep1.
  destruct (parse_duration_parts F float_of_str fadd fdiv2 one a b sep1 Ha Hb Hsep1)
    as [H1 H2].
  split; [exact H1|]. intros sep2 rest Hsep2. now rewrite H1, H2.
Qed.

Lemma parse_duration_midpoint_witness :
  parse_duration Q whole_hours Qplus (fun q => q / 2)%Q 1%Q
    (CellStr (of_ascii "1" ++ fullwidth_tilde :: of_ascii "4" ++ tilde :: of_ascii "9"))
  = parse_duration Q whole_hours Qplus (fun q => q / 2)%Q 1%Q
      (CellStr (of_ascii "1" ++ fullwidth_tilde :: of_ascii "4")).
Proof.
  refine (proj2 (parse_duration_midpoint Q whole_hours Qplus (fun q => q / 2)%Q 1%Q
                   (of_ascii "1") (of_ascii "4") fullwidth_tilde _ _ _)
                tilde (of_ascii "9") _).
  - split; reflexivity.
  - split; reflexivity.
  - now right.
  - now left.
Defined.

(** X13: a range that is open at one end, such as "3~" or "~3", gives 1.0
    and not the bound that is present, because [float] rejects the empty
    string. *)
Theorem parse_duration_open_range (F : Type) (float_of_str : pystr -> option F)
    (fadd : F -> F -> F) (fdiv2 : F -> F) (one : F) (a : pystr) (sep : N) :
  float_of_str [] = None ->
  existsb (N.eqb fullwidth_tilde) a = false /\ existsb (N.eqb tilde) a = false ->
  sep = tilde \/ sep = fullwidth_tilde ->
  parse_duration F float_of_str fadd fdiv2 one (CellStr (a ++ [sep])) = one
  /\ parse_duration F float_of_str fadd fdiv2 one (CellStr (sep :: a)) = one.
Proof.
  intros Hempty Ha Hsep.
  assert (Hnil : existsb (N.eqb fullwidth_tilde) [] = false
                 /\ existsb (N.eqb tilde) [] = false) by (split; reflexivity).
  split.
  - rewrite (proj1 (parse_duration_parts F float_of_str fadd fdiv2 one a [] sep
                      Ha Hnil Hsep)).
    rewrite Hempty. now destruct (float_of_str a).
  - change (sep :: a) with ([] ++ sep :: a).
    rewrite (proj1 (parse_duration_parts F float_of_str fadd fdiv2 one [] a sep
                      Hnil Ha Hsep)).
    now rewrite Hempty.
Qed.

Lemma parse_duration_open_range_witness :
  parse_duration Q whole_hours Qplus (fun q => q / 2)%Q 1%Q
    (CellStr (of_ascii "3" ++ [tilde])) = 1%Q
  /\ parse_duration Q whole_hours Qplus (fun q => q / 2)%Q 1%Q
       (CellStr (tilde :: of_ascii "3")) = 1%Q.
Proof.
  apply (parse_duration_open_range Q whole_hours Qplus (fun q => q / 2)%Q 1%Q
           (of_ascii "3") tilde).
  - reflexivity.
  - split; reflexivity.
  - now left.
Defined.

(* ================================================================= *)
(** ** Serial dates *)

(** X14: [excel_serial_to_date] and the serial formula of
    [create_sample_data.py] are inverse to each other on every date a
    [datetime] can hold; the conversion raises exactly for serials below
    -693228 or above 2958830; serial 46113 is 2025-04-01, as the comment in
    the source says; the weekday of the date of a serial is
    [(serial + 4) mod 7], Monday being 0. *)
Theorem excel_serial_round_trip :
  (forall x, 1 <= x <= ordinal_max ->
             excel_serial_to_date (date_serial x) = Some x)
  /\ (forall serial x,
        excel_serial_to_date serial = Some x ->
        date_serial x = serial /\ 1 <= x <= ordinal_max
        /\ weekday_of_ordinal x = (serial + 4) mod 7)
  /\ (forall serial,
        excel_serial_to_date serial = None <->
        serial < -693228 \/ 2958830 < serial)
  /\ excel_serial_to_date 46113 = Some (ymd2ord 2025 4 1).
Proof.
  assert (Hbase : ymd2ord 1899 12 31 = 693595) by (vm_compute; reflexivity).
  assert (Hmax : ordinal_max = 3652059) by (vm_compute; reflexivity).
  assert (Hdef : forall serial,
             excel_serial_to_date serial
             = if (-999999999 <=? serial - 366) && (serial - 366 <=? 999999999)
               then (if (1 <=? 693595 + (serial - 366))
                        && (693595 + (serial - 366) <=? 3652059)
                     then Some (693595 + (serial - 366)) else None)
               else None).
  { intros serial. unfold excel_serial_to_date, datetime_add_days.
    now rewrite Hbase, Hmax. }
  assert (Hcases : forall serial,
             (-693228 <= serial <= 2958830
              /\ excel_serial_to_date serial = Some (693595 + (serial - 366)))
             \/ ((serial < -693228 \/ 2958830 < serial)
                 /\ excel_serial_to_date serial = None)).
  { intros serial. rewrite Hdef.
    destruct (Z.leb_spec (-999999999) (serial - 366));
      destruct (Z.leb_spec (serial - 366) 999999999);
      destruct (Z.leb_spec 1 (693595 + (serial - 366)));
      destruct (Z.leb_spec (693595 + (serial - 366)) 3652059);
      cbn [andb]; first [left; split; [lia | reflexivity]
                        | right; split; [lia | reflexivity]]. }
  split; [|split; [|split]].
  - intros x Hx. rewrite Hmax in Hx. unfold date_serial. rewrite Hbase.
    destruct (Hcases (x - 693595 + 366)) as [[_ ->] | [Hout _]]; [|lia].
    f_equal. lia.
  - intros serial x Hsome. unfold date_serial, weekday_of_ordinal.
    rewrite Hbase, Hmax.
    destruct (Hcases serial) as [[Hin Heq] | [_ Heq]];
      rewrite Heq in Hsome; [|discriminate].
    assert (Hx : x = 693595 + (serial - 366)) by congruence.
    split; [lia|]. split; [lia|].
    rewrite Hx.
    replace (693595 + (serial - 366) + 6) with (serial + 4 + 99033 * 7) by lia.
    apply Z.mod_add. discriminate.
  - intros serial.
    destruct (Hcases serial) as [[Hin Heq] | [Hout Heq]]; rewrite Heq.
    + split; [discriminate | lia].
    + split; [intros _; exact Hout | reflexivity].
  - vm_compute. reflexivity.
Qed.

Lemma excel_serial_round_trip_witness :
  excel_serial_to_date (date_serial (ymd2ord 2025 4 2)) = Some (ymd2ord 2025 4 2).
Proof.
  apply (proj1 excel_serial_round_trip). vm_compute. split; discriminate.
Defined.

(* ================================================================= *)
(** ** The order of strings and the sorted dates *)

Lemma str_ltb_irrefl (a : pystr) : str_ltb a a = false.
Proof.
  induction a as [|x a IH]; [reflexivity|]. simpl.
  now rewrite N.ltb_irrefl, N.eqb_refl, IH.
Qed.

Lemma str_ltb_trans (a b c : pystr) :
  str_ltb a b = true -> str_ltb b c = true -> str_ltb a c = true.
Proof.
  revert b c; induction a as [|x a IH]; intros [|y b] [|z c]; simpl;
    try discriminate; try reflexivity.
  intros H1 H2.
  apply orb_true_iff in H1 as [H1 | H1]; apply orb_true_iff in H2 as [H2 | H2];
    apply orb_true_iff.
  - left. apply N.ltb_lt in H1, H2. apply N.ltb_lt. lia.
  - apply andb_true_iff in H2 as [H2 _]. apply N.eqb_eq in H2. subst. now left.
  - apply andb_true_iff in H1 as [H1 _]. apply N.eqb_eq in H1. subst. now left.
  - apply andb_true_iff in H1 as [H1 H1'], H2 as [H2 H2'].
    apply N.eqb_eq in H1, H2. subst. right.
    rewrite N.eqb_refl. simpl. exact (IH _ _ H1' H2').
Qed.

Lemma str_ltb_total (a b : pystr) :
  str_ltb a b = false -> str_ltb b a = false -> a = b.
Proof.
  revert b; induction a as [|x a IH]; intros [|y b]; simpl;
    try discriminate; try reflexivity.
  intros H1 H2.
  apply orb_false_iff in H1 as [H1 H1'], H2 as [H2 H2'].
  apply N.ltb_ge in H1, H2. assert (x = y) by lia. subst y.
  rewrite N.eqb_refl in H1', H2'. simpl in H1', H2'.
  f_equal. now apply IH.
Qed.

Lemma str_ltb_asym (a b : pystr) :
  str_ltb a b = true -> str_ltb b a = false.
Proof.
  intros H. destruct (str_ltb b a) eqn:E; [|reflexivity].
  pose proof (str_ltb_trans _ _ _ H E) as Hc.
  now rewrite str_ltb_irrefl in Hc.
Qed.

Lemma insert_str_In (x : pystr) (l : list pystr) (k : pystr) :
  In k (insert_str x l) <-> k = x \/ In k l.
Proof.
  induction l as [|y l IH]; simpl.
  - split; [intros [<- | []]; auto | intros [-> | []]; auto].
  - destruct (str_ltb y x); simpl; [rewrite IH|];
      split; intros H; intuition (subst; auto).
Qed.

Lemma sorted_In (l : list pystr) (k : pystr) : In k (sorted l) <-> In k l.
Proof.
  induction l as [|x l IH]; simpl; [tauto|].
  rewrite insert_str_In, IH. split; intros [H | H]; auto.
Qed.

Lemma insert_str_sorted (x : pystr) (l : list pystr) :
  ~ In x l ->
  StronglySorted (fun a b => str_ltb a b = true) l ->
  StronglySorted (fun a b => str_ltb a b = true) (insert_str x l).
Proof.
  induction l as [|y l IH]; intros Hnin Hs; simpl.
  - repeat constructor.
  - inversion Hs as [|? ? Hs' Hall]; subst.
    destruct (str_ltb y x) eqn:E.
    + constructor.
      * apply IH; [intros H; apply Hnin; now right | exact Hs'].
      * apply Forall_forall. intros k Hk. apply insert_str_In in Hk as [-> | Hk];
          [exact E|]. rewrite Forall_forall in Hall. now apply Hall.
    + assert (Hxy : str_ltb x y = true).
      { destruct (str_ltb x y) eqn:E'; [reflexivity|].
        exfalso. apply Hnin. left. symmetry. now apply str_ltb_total. }
      constructor; [exact Hs|].
      constructor; [exact Hxy|].
      rewrite Forall_forall in Hall |- *. intros k Hk.
      exact (str_ltb_trans _ _ _ Hxy (Hall k Hk)).
Qed.

Lemma sorted_strictly (l : list pystr) :
  NoDup l -> StronglySorted (fun a b => str_ltb a b = true) (sorted l).
Proof.
  induction l as [|x l IH]; intros Hnd; simpl; [constructor|].
  inversion Hnd as [|? ? Hx Hnd']; subst.
  apply insert_str_sorted; [now rewrite sorted_In | now apply IH].
Qed.

Lemma optimize_schedule_keys (strptime_weekday : pystr -> option Z)
    (solve : LpProblem -> LpStatus * (LpVariable -> Z))
    (self : SamplingOptimizer) (schedule_df : list schedule_row)
    (all_results : dict pystr (dict pystr (list pystr))) :
  optimize_schedule strptime_weekday solve self schedule_df = Return all_results ->
  NoDup (dict_keys all_results)
  /\ forall d, In d (dict_keys all_results) <-> In d (map date_str schedule_df).
Proof.
  unfold optimize_schedule. intros H.
  destruct (get_schedule_by_date_keys schedule_df) as [_ Hkeys].
  destruct (optimize_dates_keys _ _ _ _ _ _ H (NoDup_nil _)) as [H1 H2].
  split; [exact H1|]. intros d. rewrite H2. simpl.
  rewrite <- Hkeys. unfold dict_keys. tauto.
Qed.

(** X15: when [run_optimization] returns, [schedule_dates] lists the dates
    of the schedule, each once, in strictly increasing string order, and
    every one of them is a key of [results]; [persons] is the worker
    registry it was given. *)
Theorem run_optimization_dates (strptime_weekday : pystr -> option Z)
    (solve : LpProblem -> LpStatus * (LpVariable -> Z))
    (persons_df : list person) (tasks_df : list task_dict)
    (schedule_df : list schedule_row) (out : optimization_output) :
  run_optimization strptime_weekday solve persons_df tasks_df schedule_df
    = Return out ->
  StronglySorted (fun a b => str_ltb a b = true) (out_schedule_dates out)
  /\ (forall d, In d (out_schedule_dates out) <-> In d (map date_str schedule_df))
  /\ (forall d, In d (out_schedule_dates out) ->
        exists day_result, dict_get str_eq_dec (out_results out) d = Some day_result)
  /\ out_persons out = persons_df.
Proof.
  unfold run_optimization.
  destruct (optimize_schedule strptime_weekday solve
              {| persons := persons_df; tasks := tasks_df |} schedule_df)
    as [results|] eqn:E; [|discriminate].
  simpl. intros H. injection H as <-. cbn [out_schedule_dates out_results out_persons].
  destruct (optimize_schedule_keys strptime_weekday solve _ schedule_df results E)
    as [Hnd Hin].
  split; [now apply sorted_strictly|]. split; [|split; [|reflexivity]].
  - intros d. now rewrite sorted_In.
  - intros d Hd. apply (proj1 (sorted_In _ _)) in Hd.
    destruct (dict_get str_eq_dec results d) as [day_result|] eqn:Eg;
      [now exists day_result|].
    apply (proj1 (dict_get_None str_eq_dec results d)) in Eg. contradiction.
Qed.

Lemma run_optimization_dates_witness :
  StronglySorted (fun a b => str_ltb a b = true)
    [of_ascii "2025-04-01"; of_ascii "2025-04-02"].
Proof.
  refine (proj1 (run_optimization_dates iso_weekday exhaustive_solve
                   [W1; W2; W3] [T1; T2] sample_schedule
                   {| out_results :=
                        [(of_ascii "2025-04-01",
                          [(of_ascii "T1", [of_ascii "W2"]);
                           (of_ascii " river ", [of_ascii "W1"; of_ascii "W3"])]);
                         (of_ascii "2025-04-02",
                          [(of_ascii "T1", [of_ascii "W3"]);
                           (of_ascii "lab", [of_ascii "W1"])])];
                      out_persons := [W1; W2; W3];
                      out_schedule_dates :=
                        [of_ascii "2025-04-01"; of_ascii "2025-04-02"] |} _)).
  vm_compute. reflexivity.
Defined.

(* ================================================================= *)
(** ** The handlers *)

(** X16: after [/api/optimize] has answered 200, provided the cached data,
    if any, are the data of the workbooks, [/api/optimize/day/<date>]
    answers 200 with the very mapping the full run stored for that date,
    for every date the full run listed, and answers 404 for every other
    date. *)
Theorem app_optimize_day_agrees (strptime_weekday : pystr -> option Z)
    (solve : LpProblem -> LpStatus * (LpVariable -> Z))
    (files : App.data) (st st' : App.state)
    (results : dict pystr (dict pystr (list pystr))) (dates : list pystr) :
  App.cached_data st = None \/ App.cached_data st = Some files ->
  App.optimize strptime_weekday solve files st
    = ((200, App.Optimized results dates), st') ->
  App.cached_results st' = Some results
  /\ (forall date, In date dates ->
        exists day,
          dict_get str_eq_dec results date = Some day
          /\ fst (App.optimize_day strptime_weekday solve files st' date)
             = inr (200, App.DayOptimized date day))
  /\ (forall date, ~ In date dates ->
        fst (App.optimize_day strptime_weekday solve files st' date)
        = inr (404, App.Failure
                      (App.DateNotFound
                         (of_ascii "Date " ++ date
                          ++ of_ascii " not found in schedule")))).
Proof.
  intros Hcache Hopt. unfold App.optimize, run_optimization in Hopt.
  destruct (optimize_schedule strptime_weekday solve
              {| persons := App.persons_df files; tasks := App.tasks_df files |}
              (App.schedule_df files)) as [all_results|e] eqn:E;
    simpl in Hopt; [|discriminate].
  injection Hopt as <- <- <-.
  destruct (optimize_schedule_keys _ _ _ _ _ E) as [_ Hkeys].
  assert (Hdata : forall date,
             App.optimize_day strptime_weekday solve files
               {| App.cached_data := App.cached_data st;
                  App.cached_results := Some all_results |} date
             = let st1 := snd (App.get_cached_data files
                                 {| App.cached_data := App.cached_data st;
                                    App.cached_results := Some all_results |}) in
               match dict_get str_eq_dec
                       (get_schedule_by_date (App.schedule_df files)) date with
               | None =>
                   (inr (404, App.Failure
                                (App.DateNotFound
                                   (of_ascii "Date " ++ date
                                    ++ of_ascii " not found in schedule"))), st1)
               | Some task_list =>
                   match optimize_day strptime_weekday solve
                           {| persons := App.persons_df files;
                              tasks := App.tasks_df files |} date task_list with
                   | Return result => (inr (200, App.DayOptimized date result), st1)
                   | Raise ValueError => (inl App.UncaughtValueError, st1)
                   end
               end).
  { intros date. unfold App.optimize_day, App.get_cached_data. cbn [App.cached_data].
    destruct Hcache as [-> | ->]; reflexivity. }
  split; [reflexivity|]. split.
  - intros date Hdate. apply (proj1 (sorted_In _ _)) in Hdate. apply (proj1 (Hkeys _)) in Hdate.
    destruct (optimize_schedule_lookup _ _ _ _ _ date E Hdate) as [day [Hday Hget]].
    exists day. split; [exact Hget|].
    rewrite Hdata, get_schedule_by_date_lookup.
    destruct (in_dec str_eq_dec date (map date_str (App.schedule_df files)));
      [|contradiction].
    cbn zeta. now rewrite Hday.
  - intros date Hdate. rewrite Hdata, get_schedule_by_date_lookup.
    destruct (in_dec str_eq_dec date (map date_str (App.schedule_df files)))
      as [Hin | Hnin]; [|reflexivity].
    exfalso. apply Hdate. apply (proj2 (sorted_In _ _)). now apply (proj2 (Hkeys _)).
Qed.

Lemma app_optimize_day_agrees_witness :
  App.cached_results
    {| App.cached_data := None;
       App.cached_results :=
         Some [(of_ascii "2025-04-01", [(of_ascii "T2 river", [])])] |}
  = Some [(of_ascii "2025-04-01", [(of_ascii "T2 river", [])])]
  /\ (forall date, In date [of_ascii "2025-04-01"] ->
        exists day,
          dict_get str_eq_dec
            [(of_ascii "2025-04-01", [(of_ascii "T2 river", [])])] date = Some day
          /\ fst (App.optimize_day iso_weekday exhaustive_solve
                    {| App.persons_df := [W2]; App.tasks_df := [T2];
                       App.schedule_df := unfit_schedule |}
                    {| App.cached_data := None;
                       App.cached_results :=
                         Some [(of_ascii "2025-04-01", [(of_ascii "T2 river", [])])] |}
                    date)
             = inr (200, App.DayOptimized date day))
  /\ (forall date, ~ In date [of_ascii "2025-04-01"] ->
        fst (App.optimize_day iso_weekday exhaustive_solve
               {| App.persons_df := [W2]; App.tasks_df := [T2];
                  App.schedule_df := unfit_schedule |}
               {| App.cached_data := None;
                  App.cached_results :=
                    Some [(of_ascii "2025-04-01", [(of_ascii "T2 river", [])])] |}
               date)
        = inr (404, App.Failure
                      (App.DateNotFound
                         (of_ascii "Date " ++ date
                          ++ of_ascii " not found in schedule")))).
Proof.
  apply (app_optimize_day_agrees iso_weekday exhaustive_solve
           {| App.persons_df := [W2]; App.tasks_df := [T2];
              App.schedule_df := unfit_schedule |}
           {| App.cached_data := None; App.cached_results := None |}).
  - now left.
  - vm_compute. reflexivity.
Defined.







(* ================================================================= *)
(** ** Sorted dates are in calendar order *)

Lemma digit_spec (c : N) (v : Z) :
  digit c = Some v -> Z.of_N c = 48 + v /\ 0 <= v <= 9.
Proof.
  unfold digit.
  destruct (N.leb_spec 48 c) as [Hlo | Hlo]; [|discriminate].
  destruct (N.leb_spec c 57) as [Hhi | Hhi]; [|discriminate].
  cbn [andb]. intros Hv. injection Hv as <-. lia.
Qed.

Lemma N_ltb_Z (x y : N) : (x <? y)%N = (Z.of_N x <? Z.of_N y).
Proof.
  destruct (N.ltb_spec x y), (Z.ltb_spec (Z.of_N x) (Z.of_N y)); try reflexivity; lia.
Qed.

Lemma N_eqb_Z (x y : N) : (x =? y)%N = (Z.of_N x =? Z.of_N y).
Proof.
  destruct (N.eqb_spec x y), (Z.eqb_spec (Z.of_N x) (Z.of_N y)); try reflexivity; lia.
Qed.

(** One step of the comparison: decide the leading characters. *)
Ltac split_str_ltb :=
  repeat match goal with
         | |- context [?x <? ?y] => destruct (Z.ltb_spec x y); cbn [orb andb]
         | |- context [?x =? ?y] => destruct (Z.eqb_spec x y); cbn [orb andb]
         end.

Lemma str_ltb_iso (a b : pystr) (da db : Z * Z * Z) :
  iso_ymd a = Some da -> iso_ymd b = Some db ->
  (str_ltb a b = true <-> ymd_lt da db).
Proof.
  destruct a as [|a1 [|a2 [|a3 [|a4 [|a5 [|a6 [|a7 [|a8 [|a9 [|a10 [|a11 a]]]]]]]]]]];
    try discriminate.
  destruct b as [|b1 [|b2 [|b3 [|b4 [|b5 [|b6 [|b7 [|b8 [|b9 [|b10 [|b11 b]]]]]]]]]]];
    try discriminate.
  unfold iso_ymd.
  destruct (N.eqb_spec a5 45); [|discriminate].
  destruct (N.eqb_spec a8 45); [|discriminate].
  destruct (N.eqb_spec b5 45); [|discriminate].
  destruct (N.eqb_spec b8 45); [|discriminate].
  cbn [andb].
  destruct (digit a1) as [u1|] eqn:A1; [|discriminate].
  destruct (digit a2) as [u2|] eqn:A2; [|discriminate].
  destruct (digit a3) as [u3|] eqn:A3; [|discriminate].
  destruct (digit a4) as [u4|] eqn:A4; [|discriminate].
  destruct (digit a6) as [u6|] eqn:A6; [|discriminate].
  destruct (digit a7) as [u7|] eqn:A7; [|discriminate].
  destruct (digit a9) as [u9|] eqn:A9; [|discriminate].
  destruct (digit a10) as [u10|] eqn:A10; [|discriminate].
  destruct (digit b1) as [v1|] eqn:B1; [|discriminate].
  destruct (digit b2) as [v2|] eqn:B2; [|discriminate].
  destruct (digit b3) as [v3|] eqn:B3; [|discriminate].
  destruct (digit b4) as [v4|] eqn:B4; [|discriminate].
  destruct (digit b6) as [v6|] eqn:B6; [|discriminate].
  destruct (digit b7) as [v7|] eqn:B7; [|discriminate].
  destruct (digit b9) as [v9|] eqn:B9; [|discriminate].
  destruct (digit b10) as [v10|] eqn:B10; [|discriminate].
  remember (1000 * u1 + 100 * u2 + 10 * u3 + u4) as ya eqn:Eya.
  remember (10 * u6 + u7) as ma eqn:Ema.
  remember (10 * u9 + u10) as dya eqn:Edya.
  remember (1000 * v1 + 100 * v2 + 10 * v3 + v4) as yb eqn:Eyb.
  remember (10 * v6 + v7) as mb eqn:Emb.
  remember (10 * v9 + v10) as dyb eqn:Edyb.
  intros Ha Hb. injection Ha as <-. injection Hb as <-.
  apply digit_spec in A1 as [A1 A1'], A2 as [A2 A2'], A3 as [A3 A3'],
    A4 as [A4 A4'], A6 as [A6 A6'], A7 as [A7 A7'], A9 as [A9 A9'],
    A10 as [A10 A10'], B1 as [B1 B1'], B2 as [B2 B2'], B3 as [B3 B3'],
    B4 as [B4 B4'], B6 as [B6 B6'], B7 as [B7 B7'], B9 as [B9 B9'],
    B10 as [B10 B10'].
  subst a5 a8 b5 b8. unfold ymd_lt. cbn [str_ltb].
  rewrite !N_ltb_Z, !N_eqb_Z.
  rewrite A1, A2, A3, A4, A6, A7, A9, A10, B1, B2, B3, B4, B6, B7, B9, B10.
  clear A1 A2 A3 A4 A6 A7 A9 A10 B1 B2 B3 B4 B6 B7 B9 B10.
  clear a1 a2 a3 a4 a6 a7 a9 a10 b1 b2 b3 b4 b6 b7 b9 b10.
  split_str_ltb;
    (split; intros Hlt;
     first [reflexivity | discriminate Hlt | lia | (exfalso; lia)]).
Qed.

Lemma StronglySorted_weaken {A : Type} (R R' : A -> A -> Prop) (l : list A) :
  (forall a b, In a l -> In b l -> R a b -> R' a b) ->
  StronglySorted R l -> StronglySorted R' l.
Proof.
  induction l as [|x l IH]; intros H Hs; [constructor|].
  inversion Hs as [|? ? Hs' Hall]; subst. constructor.
  - apply IH; [|exact Hs']. intros a b Ha Hb. apply H; now right.
  - rewrite Forall_forall in Hall |- *. intros b Hb.
    apply H; [now left | now right | now apply Hall].
Qed.

(** X19: when every date of the schedule is written YYYY-MM-DD,
    [schedule_dates] of [run_optimization] is in calendar order: each date
    is before the next by year, then month, then day. *)
Theorem run_optimization_chronological (strptime_weekday : pystr -> option Z)
    (solve : LpProblem -> LpStatus * (LpVariable -> Z))
    (persons_df : list person) (tasks_df : list task_dict)
    (schedule_df : list schedule_row) (out : optimization_output) :
  run_optimization strptime_weekday solve persons_df tasks_df schedule_df
    = Return out ->
  (forall row, In row schedule_df -> iso_ymd (date_str row) <> None) ->
  StronglySorted
    (fun a b => exists da db,
                  iso_ymd a = Some da /\ iso_ymd b = Some db /\ ymd_lt da db)
    (out_schedule_dates out).
Proof.
  unfold run_optimization.
  destruct (optimize_schedule strptime_weekday solve
              {| persons := persons_df; tasks := tasks_df |} schedule_df)
    as [results|] eqn:E; [|discriminate].
  simpl. intros H Hiso. injection H as <-. cbn [out_schedule_dates].
  destruct (optimize_schedule_keys _ _ _ _ _ E) as [Hnd Hkeys].
  assert (Hparse : forall d, In d (sorted (dict_keys results)) ->
                     exists v, iso_ymd d = Some v).
  { intros d Hd. apply (proj1 (sorted_In _ _)) in Hd. apply (proj1 (Hkeys _)) in Hd.
    apply in_map_iff in Hd as [row [<- Hrow]].
    destruct (iso_ymd (date_str row)) as [v|] eqn:Ev; [now exists v|].
    exfalso. exact (Hiso row Hrow Ev). }
  apply (StronglySorted_weaken (fun a b => str_ltb a b = true));
    [|now apply sorted_strictly].
  intros a b Ha Hb Hlt.
  destruct (Hparse a Ha) as [da Hda]. destruct (Hparse b Hb) as [db Hdb].
  exists da, db. split; [exact Hda|]. split; [exact Hdb|].
  now apply (str_ltb_iso a b da db Hda Hdb).
Qed.

Lemma run_optimization_chronological_witness :
  StronglySorted
    (fun a b => exists da db,
                  iso_ymd a = Some da /\ iso_ymd b = Some db /\ ymd_lt da db)
    [of_ascii "2025-04-01"; of_ascii "2025-04-02"].
Proof.
  refine (run_optimization_chronological iso_weekday exhaustive_solve
            [W1; W2; W3] [T1; T2] sample_schedule
            {| out_results :=
                 [(of_ascii "2025-04-01",
                   [(of_ascii "T1", [of_ascii "W2"]);
                    (of_ascii " river ", [of_ascii "W1"; of_ascii "W3"])]);
                  (of_ascii "2025-04-02",
                   [(of_ascii "T1", [of_ascii "W3"]);
                    (of_ascii "lab", [of_ascii "W1"])])];
               out_persons := [W1; W2; W3];
               out_schedule_dates :=
                 [of_ascii "2025-04-01"; of_ascii "2025-04-02"] |} _ _).
  - vm_compute. reflexivity.
  - intros row [<- | [<- | [<- | [<- | []]]]]; discriminate.
Defined.
